(** * scripts/run_clangformat.py: the [format] and [verify] build targets

    A shallow embedding of the PlatformIO helper script
    [scripts/run_clangformat.py] and the properties of its two helpers
    ([install_clang_format], [get_project_files]) and two target callbacks
    ([format_callback], [verify_callback]).

    The script is effectful: it prints, spawns processes, reads the build
    environment and the file system, and may leave through [env.Exit].  It is
    modelled in a small monad that records every effect as an event of a trace
    and answers every query from a [World] (the host as the script sees it).
    Paths follow POSIX conventions ([os.sep] is the slash). *)

From Stdlib Require Import List String Ascii Bool Arith ZArith Lia DecimalString DecimalNat.
Import ListNotations.
Open Scope string_scope.

Set Warnings "-register-all".

(* ================================================================== *)
(** ** Python string helpers *)

Module PyStr.

(** The characters that no string literal of this file spells out. *)
Definition sep_char : ascii := ascii_of_nat 47.
Definition sep : string := String sep_char EmptyString.
Definition dquote : string := String (ascii_of_nat 34) EmptyString.
Definition nl : string := String (ascii_of_nat 10) EmptyString.

(** [s.startswith(p)] *)
Definition startswith (s p : string) : bool := String.prefix p s.

(** [s.endswith(suf)] for one suffix: some tail of [s] is [suf]. *)
Fixpoint endswith (s suf : string) : bool :=
  if String.eqb s suf then true
  else match s with
       | EmptyString => false
       | String _ s' => endswith s' suf
       end.

(** [s.endswith(t)] for a tuple of suffixes [t]. *)
Definition endswith_any (s : string) (t : list string) : bool :=
  existsb (endswith s) t.

(** [str(n)] for a non-negative integer. *)
Definition str (n : nat) : string := NilEmpty.string_of_uint (Nat.to_uint n).

(** [not s] for an optional string: [None] and the empty string are falsy. *)
Definition falsy (o : option string) : bool :=
  match o with
  | None => true
  | Some s => String.eqb s EmptyString
  end.

(** [c in s] for the separator. *)
Fixpoint has_sep (s : string) : bool :=
  match s with
  | EmptyString => false
  | String c s' => Ascii.eqb c sep_char || has_sep s'
  end.

End PyStr.

(* ================================================================== *)
(** ** [os.path] *)

Module OsPath.
Import PyStr.

(** [posixpath.join(a, b)]: an absolute [b] replaces [a]; otherwise [b] is
    appended, with a separator unless [a] is empty or already ends in one. *)
Definition join (a b : string) : string :=
  if startswith b sep then b
  else if String.eqb a EmptyString || endswith a sep then a ++ b
  else a ++ sep ++ b.

(** [posixpath.basename(p)]: what follows the last separator. *)
Fixpoint basename (p : string) : string :=
  match p with
  | EmptyString => EmptyString
  | String c p' =>
      if has_sep p' then basename p'
      else if Ascii.eqb c sep_char then p'
      else p
  end.

End OsPath.

(* ================================================================== *)
(** ** The file system as [os.walk] sees it *)

(** A directory entry is a name, whether the entry is a symbolic link, and
    what it leads to.  Everything that is not a directory (a regular file, a
    link to one, a dangling link, a device) is a [File]. *)
Inductive node : Type :=
| File : node
| Dir : list (string * bool * node) -> node.

Definition entry : Type := (string * bool * node)%type.

Definition entry_name (e : entry) : string := fst (fst e).
Definition entry_islink (e : entry) : bool := snd (fst e).
Definition entry_node (e : entry) : node := snd e.

Definition is_dir (n : node) : bool :=
  match n with Dir _ => true | File => false end.

(** What [os.walk] yields for one directory: [(root, dirs, files)]. *)
Definition walk_item : Type := (string * list string * list string)%type.

Module Os.
Import PyStr OsPath.

(** The [dirs] of a directory listing: entries for which [is_dir()] holds,
    links to directories included, in listing order. *)
Definition dirnames (es : list entry) : list string :=
  map entry_name (filter (fun e => is_dir (entry_node e)) es).

(** The [files] of a directory listing: every other entry. *)
Definition filenames (es : list entry) : list string :=
  map entry_name (filter (fun e => negb (is_dir (entry_node e))) es).

(** [os.walk(top)] with its defaults ([topdown=True], [onerror=None],
    [followlinks=False]), on the node [top] resolves to.  A directory yields
    its own item, then the walk of every sub-directory that is not a
    symbolic link, under the joined path.  On anything else [scandir] raises
    [NotADirectoryError]; with [onerror=None] the error is dropped and the
    walk yields nothing. *)
Fixpoint walk (top : string) (n : node) : list walk_item :=
  match n with
  | Dir es =>
      (top, dirnames es, filenames es)
        :: flat_map (fun e : entry =>
                       match e with
                       | (d, islink, c) =>
                           if is_dir c && negb islink then walk (join top d) c else []
                       end) es
  | File => []
  end.

End Os.

(* ================================================================== *)
(** ** Effects *)

(** Everything the script does to the outside, in program order. *)
Inductive Event : Type :=
| EvPrint (line : string)              (* print(line) *)
| EvCheckCall (argv : list string)     (* subprocess.check_call(argv) *)
| EvEnvGet (key : string)              (* env.get(key) *)
| EvExists (path : string)             (* os.path.exists(path) *)
| EvWalk (top : string)                (* os.walk(top), run to its end *)
| EvExecute (cmd : string)             (* env.Execute(cmd) *)
| EvRun (argv : list string).          (* subprocess.run(argv, ...) *)

(** The host as the script sees it.  [formatter_present] says whether a
    [clang-format] executable is already installed before the run; the
    script has no way to ask. *)
Record World : Type := mkWorld {
  sys_executable : string;                  (* sys.executable *)
  getenv : string -> option string;         (* env.get *)
  fs_lookup : string -> option node;        (* what a path resolves to, if it exists *)
  formatter_present : bool;
  pip_returncode : Z;                       (* exit status of the pip command *)
  execute_status : string -> Z;             (* what env.Execute(cmd) returns *)
  run_returncode : list string -> Z         (* subprocess.run(argv).returncode *)
}.

(** How a computation ends: it returns a value, or [env.Exit(code)] ends the
    process ([SystemExit] is caught nowhere in the script). *)
Inductive Outcome (A : Type) : Type :=
| Returned (a : A)
| Exited (code : Z).

Arguments Returned {A} a.
Arguments Exited {A} code.

(** A computation reads the world and produces its trace and its outcome. *)
Definition M (A : Type) : Type := World -> list Event * Outcome A.

Definition ret {A} (a : A) : M A := fun _ => ([], Returned a).

Definition bind {A B} (m : M A) (k : A -> M B) : M B :=
  fun w =>
    match m w with
    | (t, Returned a) => let (t', o) := k a w in ((t ++ t')%list, o)
    | (t, Exited c) => (t, Exited c)
    end.

Declare Scope py_scope.
Delimit Scope py_scope with py.
Notation "x <- m ;; k" := (bind m (fun x => k))
  (at level 61, m at next level, right associativity) : py_scope.
Notation "m ;;; k" := (bind m (fun _ => k))
  (at level 61, right associativity) : py_scope.
Open Scope py_scope.

(** [for x in xs: acc = body(acc, x)] *)
Fixpoint for_fold {A S} (xs : list A) (body : S -> A -> M S) (acc : S) : M S :=
  match xs with
  | [] => ret acc
  | x :: xs' => acc' <- body acc x ;; for_fold xs' body acc'
  end.

(** [for x in xs: body(x)] *)
Definition for_each {A} (xs : list A) (body : A -> M unit) : M unit :=
  for_fold xs (fun _ x => body x) tt.

Definition emit (e : Event) : M unit := fun _ => ([e], Returned tt).

Definition print (line : string) : M unit := emit (EvPrint line).

(** [env.Exit(code)] *)
Definition env_Exit {A} (code : Z) : M A := fun _ => ([], Exited code).

(** [env.get(key)] *)
Definition env_get (key : string) : M (option string) :=
  fun w => ([EvEnvGet key], Returned (getenv w key)).

(** [os.path.exists(path)] *)
Definition os_path_exists (path : string) : M bool :=
  fun w => ([EvExists path],
            Returned (match fs_lookup w path with Some _ => true | None => false end)).

(** [os.walk(top)], consumed to its end by the [for] loop over it.  Only
    called on a path that exists; a path that has vanished since yields
    nothing, as [scandir]'s error is dropped. *)
Definition os_walk (top : string) : M (list walk_item) :=
  fun w => ([EvWalk top],
            Returned (match fs_lookup w top with
                      | Some n => Os.walk top n
                      | None => []
                      end)).

(** [subprocess.check_call(argv)]: returns on status 0 ([inl tt]) and raises
    [CalledProcessError] carrying the status otherwise ([inr status]).  The
    only command run this way is the running interpreter itself. *)
Definition check_call (argv : list string) : M (unit + Z) :=
  fun w => ([EvCheckCall argv],
            Returned (if Z.eqb (pip_returncode w) 0 then inl tt else inr (pip_returncode w))).

(** [env.Execute(cmd)]: runs the command and returns its status. *)
Definition env_Execute (cmd : string) : M Z :=
  fun w => ([EvExecute cmd], Returned (execute_status w cmd)).

(** [subprocess.run(argv, capture_output=True, text=True).returncode] *)
Definition subprocess_run (argv : list string) : M Z :=
  fun w => ([EvRun argv], Returned (run_returncode w argv)).

(* ================================================================== *)
(** ** The script *)

Definition pip_install_argv (w : World) : list string :=
  [sys_executable w; "-m"; "pip"; "install"; "clang-format"].

(** [install_clang_format()] *)
Definition install_clang_format : M unit :=
  print "Checking for clang-format..." ;;;
  r <- (fun w => check_call (pip_install_argv w) w) ;;
  match r with
  | inl _ => ret tt
  | inr _ =>                                   (* except CalledProcessError *)
      print "Error: Failed to install clang-format." ;;;
      env_Exit 1
  end.

Definition valid_extensions : list string :=
  [".c"; ".cpp"; ".h"; ".hpp"; ".cc"; ".cxx"; ".hxx"; ".hh"].

(** The two inner loops of [get_project_files] over one walk: every file
    name of every item that ends with a valid extension is appended, joined
    to the item's root. *)
Definition scan_files (root : string) (files : list string) (acc : list string)
  : list string :=
  fold_left (fun acc file =>
               if PyStr.endswith_any file valid_extensions
               then (acc ++ [OsPath.join root file])%list
               else acc) files acc.

Definition scan_walk (items : list walk_item) (acc : list string) : list string :=
  fold_left (fun acc (it : walk_item) =>
               match it with (root, _, files) => scan_files root files acc end)
            items acc.

(** [get_project_files(env)] *)
Definition get_project_files : M (list string) :=
  src <- env_get "PROJECT_SRC_DIR" ;;
  inc <- env_get "PROJECT_INCLUDE_DIR" ;;
  let check_folders := [src; inc] in
  for_fold check_folders
    (fun files_to_process folder =>
       match folder with
       | Some path =>
           if PyStr.falsy folder then ret files_to_process       (* continue *)
           else
             there <- os_path_exists path ;;
             if negb there then ret files_to_process             (* continue *)
             else
               items <- os_walk path ;;
               ret (scan_walk items files_to_process)
       | None => ret files_to_process                            (* continue *)
       end)
    [].

Definition format_cmd (file : string) : string :=
  "clang-format -i " ++ PyStr.dquote ++ file ++ PyStr.dquote.

(** [format_callback]: the action of the [format] target. *)
Definition format_callback : M unit :=
  install_clang_format ;;;
  files <- get_project_files ;;
  match files with
  | [] => print "No source files found to format."
  | _ =>
      print ("Formatting " ++ PyStr.str (List.length files) ++ " files...") ;;;
      for_each files (fun file => _ <- env_Execute (format_cmd file) ;; ret tt) ;;;
      print "Done!"
  end.

Definition verify_cmd (file : string) : list string :=
  ["clang-format"; "-n"; "--Werror"; file].

(** The body of the loop of [verify_callback]. *)
Definition verify_one (error_count : nat) (file : string) : M nat :=
  let cmd := verify_cmd file in
  returncode <- subprocess_run cmd ;;
  if negb (Z.eqb returncode 0) then
    print ("❌ Formatting Error: " ++ file) ;;;
    ret (error_count + 1)
  else
    print ("✅ Clean: " ++ OsPath.basename file) ;;;
    ret error_count.

(** [verify_callback]: the action of the [verify] target. *)
Definition verify_callback : M unit :=
  install_clang_format ;;;
  files <- get_project_files ;;
  match files with
  | [] => print "No source files found to verify."
  | _ =>
      print ("Verifying " ++ PyStr.str (List.length files) ++ " files...") ;;;
      error_count <- for_fold files verify_one 0 ;;
      if Nat.ltb 0 error_count then
        print (PyStr.nl ++ "FAILED: " ++ PyStr.str error_count ++ " file(s) need formatting.") ;;;
        print "Run 'pio run -t format' to fix them." ;;;
        env_Exit 1                                         (* fail the build *)
      else
        print (PyStr.nl ++ "SUCCESS: All files are formatted correctly.")
  end.

(** The exit status the build ends with: the code given to [env.Exit], or 0
    when the target's callback returns. *)
Definition exit_status {A} (o : Outcome A) : Z :=
  match o with
  | Returned _ => 0
  | Exited c => c
  end.

(* ================================================================== *)
(** ** What the collector computes *)

Open Scope list_scope.

Module Collect.
Import PyStr OsPath Os.

Definition SRC : string := "PROJECT_SRC_DIR".
Definition INC : string := "PROJECT_INCLUDE_DIR".

(** The names of a listing that end with a valid extension. *)
Definition matching (files : list string) : list string :=
  filter (fun file => endswith_any file valid_extensions) files.

(** The paths one walk item contributes, and those of a whole walk. *)
Definition item_files (it : walk_item) : list string :=
  match it with (root, _, files) => map (join root) (matching files) end.

Definition walk_files (items : list walk_item) : list string :=
  flat_map item_files items.

(** The paths one entry of [check_folders] contributes. *)
Definition root_files (w : World) (folder : option string) : list string :=
  match folder with
  | Some path =>
      if falsy folder then []
      else match fs_lookup w path with
           | Some n => walk_files (walk path n)
           | None => []
           end
  | None => []
  end.

(** The file-system accesses one entry of [check_folders] causes. *)
Definition root_events (w : World) (folder : option string) : list Event :=
  match folder with
  | Some path =>
      if falsy folder then []
      else match fs_lookup w path with
           | Some _ => [EvExists path; EvWalk path]
           | None => [EvExists path]
           end
  | None => []
  end.

Definition project_files (w : World) : list string :=
  root_files w (getenv w SRC) ++ root_files w (getenv w INC).

Definition collect_events (w : World) : list Event :=
  EvEnvGet SRC :: EvEnvGet INC
    :: root_events w (getenv w SRC) ++ root_events w (getenv w INC).

End Collect.

(* ================================================================== *)
(** ** What the targets do *)

Module Run.
Import PyStr OsPath Collect.

(** The events of [install_clang_format], on success and on failure. *)
Definition install_events (w : World) : list Event :=
  [EvPrint "Checking for clang-format..."; EvCheckCall (pip_install_argv w)].

Definition install_failed_events (w : World) : list Event :=
  install_events w ++ [EvPrint "Error: Failed to install clang-format."].

(** The check of one file fails when the formatter's status is not 0. *)
Definition needs_formatting (w : World) (file : string) : bool :=
  negb (Z.eqb (run_returncode w (verify_cmd file)) 0).

(** The number of files whose check fails. *)
Definition failing (w : World) (files : list string) : nat :=
  List.length (filter (needs_formatting w) files).

(** The two events of one turn of the loop of [verify_callback]. *)
Definition verify_events (w : World) (file : string) : list Event :=
  [EvRun (verify_cmd file);
   EvPrint (if needs_formatting w file
            then ("❌ Formatting Error: " ++ file)%string
            else ("✅ Clean: " ++ basename file)%string)].

(** The events of the loop of [format_callback]. *)
Definition format_events (files : list string) : list Event :=
  map (fun file => EvExecute (format_cmd file)) files.

(** What [verify_callback] prints after its loop. *)
Definition summary_events (n : nat) : list Event :=
  if Nat.ltb 0 n
  then [EvPrint (nl ++ "FAILED: " ++ str n ++ " file(s) need formatting.")%string;
        EvPrint "Run 'pio run -t format' to fix them."]
  else [EvPrint (nl ++ "SUCCESS: All files are formatted correctly.")%string].

(** The events that start an external program. *)
Definition is_spawn (e : Event) : bool :=
  match e with
  | EvCheckCall _ | EvExecute _ | EvRun _ => true
  | _ => false
  end.

(** The events that invoke the formatter. *)
Definition is_formatter_call (e : Event) : bool :=
  match e with
  | EvExecute _ | EvRun _ => true
  | _ => false
  end.

Definition is_print (e : Event) : bool :=
  match e with
  | EvPrint _ => true
  | _ => false
  end.

End Run.

(* ================================================================== *)
(** ** Files under a root *)

Module Tree.
Import PyStr OsPath Os Collect.

(** A name as a directory listing gives it: not empty, no separator. *)
Definition wf_name (s : string) : Prop :=
  s <> EmptyString /\ has_sep s = false.

(** A tree as a file system holds it: the names of a directory are such
    names, no two entries of a directory share one, and so below. *)
Inductive wf_node : node -> Prop :=
| wf_File : wf_node File
| wf_Dir (es : list entry) :
    NoDup (map entry_name es) ->
    Forall (fun e => wf_name (entry_name e) /\ wf_node (entry_node e)) es ->
    wf_node (Dir es).

(** [discovered top n dir name]: under the root [top], which is the node
    [n], the directory [dir] lists the file [name].  Sub-directories are
    entered, symbolic links to directories are not. *)
Inductive discovered : string -> node -> string -> string -> Prop :=
| disc_here (top : string) (es : list entry) (name : string) (islink : bool) :
    In (name, islink, File) es ->
    discovered top (Dir es) top name
| disc_below (top : string) (es : list entry) (d : string) (c : node)
             (dir name : string) :
    In (d, false, c) es ->
    discovered (join top d) c dir name ->
    discovered top (Dir es) dir name.

(** [p] is a file recursively discovered under the root [top] whose name
    ends with a recognized extension. *)
Definition found_under (top : string) (n : node) (p : string) : Prop :=
  exists dir name,
    discovered top n dir name
    /\ endswith_any name valid_extensions = true
    /\ p = join dir name.

(** [p] is such a file under the root configured as [key], which is set,
    not empty, and exists. *)
Definition found (w : World) (key : string) (p : string) : Prop :=
  exists top n,
    getenv w key = Some top /\ top <> EmptyString
    /\ fs_lookup w top = Some n /\ found_under top n p.

(** Every configured root that exists holds a well-formed tree. *)
Definition roots_wf (w : World) : Prop :=
  forall key top n,
    In key [SRC; INC] -> getenv w key = Some top -> fs_lookup w top = Some n ->
    wf_node n.

(** [top] with the separator [join] puts after it. *)
Definition slashed (top : string) : string :=
  if String.eqb top EmptyString || endswith top sep then top
  else (top ++ sep)%string.

(** The matching files of a tree, as paths relative to its root. *)
Fixpoint rel_files (n : node) : list string :=
  match n with
  | Dir es =>
      matching (filenames es)
        ++ flat_map (fun e : entry =>
                       match e with
                       | (d, islink, c) =>
                           if is_dir c && negb islink
                           then map (fun r => (d ++ sep ++ r)%string) (rel_files c)
                           else []
                       end) es
  | File => []
  end.

End Tree.

(* ================================================================== *)
(** ** What a run does to the project's files *)

Module Disk.

(** A spawned formatter runs in dry-run mode when [-n] is among its
    arguments. *)
Definition is_dry_run (argv : list string) : bool :=
  match argv with
  | prog :: args => String.eqb prog "clang-format" && existsb (String.eqb "-n") args
  | [] => false
  end.

Section Contents.

(** The contents of the project's files, and what commands do to them:
    a shell command run by [env.Execute] and a spawned program may rewrite
    them in any way; a formatter in dry-run mode reports and writes nothing;
    the package installer writes to the interpreter's packages, not to the
    project. *)
Variable Disk : Type.
Variable shell : string -> Disk -> Disk.
Variable spawn : list string -> Disk -> Disk.

Definition event_effect (d : Disk) (e : Event) : Disk :=
  match e with
  | EvExecute cmd => shell cmd d
  | EvRun argv => if is_dry_run argv then d else spawn argv d
  | EvCheckCall _ => d
  | EvPrint _ | EvEnvGet _ | EvExists _ | EvWalk _ => d
  end.

Definition trace_effect (t : list Event) (d : Disk) : Disk :=
  fold_left event_effect t d.

End Contents.

End Disk.

(* ================================================================== *)
(** ** Variations of a world *)

(** The same host with other statuses for the commands of [env.Execute]. *)
Definition with_execute_status (st : string -> Z) (w : World) : World :=
  {| sys_executable := sys_executable w;
     getenv := getenv w;
     fs_lookup := fs_lookup w;
     formatter_present := formatter_present w;
     pip_returncode := pip_returncode w;
     execute_status := st;
     run_returncode := run_returncode w |}.

(** The same host with the variable [key] unset. *)
Definition unset (key : string) (w : World) : World :=
  {| sys_executable := sys_executable w;
     getenv := fun k => if String.eqb k key then None else getenv w k;
     fs_lookup := fs_lookup w;
     formatter_present := formatter_present w;
     pip_returncode := pip_returncode w;
     execute_status := execute_status w;
     run_returncode := run_returncode w |}.

(** The same host with nothing at the path [p]. *)
Definition without_path (p : string) (w : World) : World :=
  {| sys_executable := sys_executable w;
     getenv := getenv w;
     fs_lookup := fun q => if String.eqb q p then None else fs_lookup w q;
     formatter_present := formatter_present w;
     pip_returncode := pip_returncode w;
     execute_status := execute_status w;
     run_returncode := run_returncode w |}.

(* ================================================================== *)
(** ** Example hosts *)

Module Demo.
Import Collect.

Fixpoint assoc {A : Type} (tbl : list (string * A)) (k : string) : option A :=
  match tbl with
  | [] => None
  | (k', v) :: tbl' => if String.eqb k k' then Some v else assoc tbl' k
  end.

Fixpoint argv_eqb (a b : list string) : bool :=
  match a, b with
  | [], [] => true
  | x :: a', y :: b' => String.eqb x y && argv_eqb a' b'
  | _, _ => false
  end.

(** A host given by its build variables, its paths, whether the formatter
    is installed, the installer's status, and the files whose check fails. *)
Definition host (vars : list (string * string)) (paths : list (string * node))
    (present : bool) (pip : Z) (dirty : list string) : World :=
  {| sys_executable := "python";
     getenv := assoc vars;
     fs_lookup := assoc paths;
     formatter_present := present;
     pip_returncode := pip;
     execute_status := fun _ => 0%Z;
     run_returncode := fun argv =>
       if existsb (fun f => argv_eqb argv (verify_cmd f)) dirty then 1%Z else 0%Z |}.

(** [src] holds [a.cpp] and [b.py]. *)
Definition src_tree : node :=
  Dir [("a.cpp", false, File); ("b.py", false, File)].

(** One root, [a.cpp] misformatted. *)
Definition example : World :=
  host [(SRC, "src")] [("src", src_tree)] false 0 ["src/a.cpp"].

(** One root, everything formatted. *)
Definition example_clean : World :=
  host [(SRC, "src")] [("src", src_tree)] false 0 [].

(** Both roots name the same directory. *)
Definition same_roots : World :=
  host [(SRC, "src"); (INC, "src")] [("src", Dir [("a.c", false, File)])] false 0 [].

(** Two roots apart from each other. *)
Definition two_roots : World :=
  host [(SRC, "src"); (INC, "include")]
       [("src", src_tree); ("include", Dir [("a.h", false, File)])] false 0 [].

(** No file to process. *)
Definition no_sources : World :=
  host [(SRC, "src")] [("src", Dir [("b.py", false, File)])] false 0 [].

(** The installer fails. *)
Definition pip_broken : World :=
  host [(SRC, "src")] [("src", src_tree)] false 1 [].

(** The formatter is installed already. *)
Definition already_installed : World :=
  host [(SRC, "src")] [("src", src_tree)] true 0 [].

(** The source root is a regular file. *)
Definition root_is_file : World :=
  host [(SRC, "main.c"); (INC, "src")] [("main.c", File); ("src", src_tree)] false 0 [].

End Demo.

(* ================================================================== *)
(** ** The targets the script registers *)

Module Targets.




End Targets.

(** An include root inside the source root. *)
Definition nested_roots : World :=
  Demo.host [(Collect.SRC, "src"); (Collect.INC, "src/inc")]
            [("src", Dir [("a.c", false, File);
                          ("inc", false, Dir [("a.h", false, File)])]);
             ("src/inc", Dir [("a.h", false, File)])]
            false 0 [].

(** The events of [subprocess.check_call]. *)
Definition is_check_call (e : Event) : bool :=
  match e with
  | EvCheckCall _ => true
  | _ => false
  end.

(* ================================================================== *)
(** * Properties *)

Arguments PyStr.endswith_any : simpl never.

(* ================================================================== *)
(** ** Strings *)

Module StrFacts.
Import PyStr OsPath.
Local Open Scope string_scope.

Lemma append_nil_r (s : string) : s ++ EmptyString = s.
Proof. induction s as [|c s IH]; simpl; [reflexivity | now rewrite IH]. Qed.

Lemma append_assoc (a b c : string) : (a ++ b) ++ c = a ++ (b ++ c).
Proof. induction a as [|x a IH]; simpl; [reflexivity | now rewrite IH]. Qed.

Lemma append_inj_l (a b c : string) : a ++ b = a ++ c -> b = c.
Proof.
  induction a as [|x a IH]; simpl; intros H; [exact H |].
  injection H as H. now apply IH.
Qed.

Lemma append_empty (a b : string) : a ++ b = EmptyString -> b = EmptyString.
Proof. destruct a; simpl; [trivial | discriminate]. Qed.

Lemma endswith_unfold (s suf : string) :
  endswith s suf =
    if String.eqb s suf then true
    else match s with
         | EmptyString => false
         | String _ s' => endswith s' suf
         end.
Proof. destruct s; reflexivity. Qed.

(** [endswith] finds exactly the suffixes. *)
Lemma endswith_spec (s suf : string) :
  endswith s suf = true <-> exists pre, s = pre ++ suf.
Proof.
  induction s as [|c s IH]; rewrite endswith_unfold.
  - destruct (String.eqb_spec EmptyString suf) as [E|E].
    + split; [intros _; exists EmptyString; now subst | intros _; reflexivity].
    + split; [discriminate |].
      intros [pre H]. symmetry in H. apply append_empty in H. congruence.
  - destruct (String.eqb_spec (String c s) suf) as [E|E].
    + split; [intros _; exists EmptyString; now subst | intros _; reflexivity].
    + rewrite IH. split.
      * intros [pre H]. exists (String c pre). simpl. now rewrite H.
      * intros [[|x pre] H]; simpl in H.
        -- congruence.
        -- injection H as _ H. now exists pre.
Qed.

Lemma endswith_any_spec (s : string) (t : list string) :
  endswith_any s t = true <-> exists ext pre, In ext t /\ s = pre ++ ext.
Proof.
  unfold endswith_any. rewrite existsb_exists. split.
  - intros [ext [Hin H]]. apply endswith_spec in H. destruct H as [pre H].
    now exists ext, pre.
  - intros [ext [pre [Hin H]]]. exists ext. split; [exact Hin |].
    apply endswith_spec. now exists pre.
Qed.

Lemma has_sep_append (a b : string) :
  has_sep (a ++ b) = has_sep a || has_sep b.
Proof.
  induction a as [|c a IH]; simpl; [reflexivity |].
  now rewrite IH, orb_assoc.
Qed.

Lemma has_sep_sep : has_sep sep = true.
Proof. reflexivity. Qed.

(** A name without separator is the whole first segment of a path. *)
Lemma first_segment (d1 d2 r1 r2 : string) :
  has_sep d1 = false -> has_sep d2 = false ->
  d1 ++ sep ++ r1 = d2 ++ sep ++ r2 -> d1 = d2 /\ r1 = r2.
Proof.
  revert d2. induction d1 as [|c d1 IH]; intros [|c2 d2]; simpl; intros H1 H2 E.
  - injection E as E. now split.
  - injection E as Ec E. subst c2.
    change (Ascii.eqb sep_char sep_char) with true in H2. discriminate.
  - injection E as Ec E. subst c.
    change (Ascii.eqb sep_char sep_char) with true in H1. discriminate.
  - injection E as Ec E. subst c2.
    apply orb_false_elim in H1. apply orb_false_elim in H2.
    destruct (IH d2 (proj2 H1) (proj2 H2) E) as [-> ->]. now split.
Qed.

Lemma startswith_sep_false (s : string) :
  has_sep s = false -> startswith s sep = false.
Proof.
  destruct s as [|c s]; [reflexivity |].
  intros H. simpl in H. apply orb_false_elim in H. destruct H as [H _].
  unfold startswith, sep. cbn [prefix].
  destruct (ascii_dec sep_char c) as [E|E]; [| reflexivity].
  subst c. change (Ascii.eqb sep_char sep_char) with true in H. discriminate.
Qed.

Lemma endswith_sep_false (a d : string) :
  d <> EmptyString -> has_sep d = false -> endswith (a ++ d) sep = false.
Proof.
  intros Hne Hd.
  destruct (endswith (a ++ d) sep) eqn:E; [| reflexivity].
  exfalso. apply endswith_spec in E. destruct E as [pre E].
  revert pre E. induction a as [|x a IH]; simpl; intros pre E.
  - clear -Hne Hd E. revert pre E. induction d as [|c d IH]; [congruence |].
    intros pre E. simpl in Hd. apply orb_false_elim in Hd. destruct Hd as [Hc Hd].
    destruct pre as [|y pre]; simpl in E.
    + injection E as Ec _. subst c.
      change (Ascii.eqb sep_char sep_char) with true in Hc. discriminate.
    + injection E as _ E. destruct d as [|c' d'].
      * destruct pre; discriminate.
      * apply (IH ltac:(discriminate) Hd pre E).
  - destruct pre as [|y pre]; simpl in E.
    + injection E as _ E. apply append_empty in E. contradiction.
    + injection E as _ E. apply (IH pre E).
Qed.

End StrFacts.

(* ================================================================== *)
(** ** The collector in closed form *)

Module CollectFacts.
Import PyStr OsPath Os Collect.

Lemma scan_files_eq (root : string) (files acc : list string) :
  scan_files root files acc = acc ++ map (join root) (matching files).
Proof.
  unfold scan_files, matching. revert acc.
  induction files as [|f files IH]; intros acc; simpl.
  - now rewrite app_nil_r.
  - rewrite IH. destruct (endswith_any f valid_extensions); simpl.
    + now rewrite <- app_assoc.
    + reflexivity.
Qed.

Lemma scan_walk_eq (items : list walk_item) (acc : list string) :
  scan_walk items acc = acc ++ walk_files items.
Proof.
  unfold scan_walk, walk_files. revert acc.
  induction items as [|[[root dirs] files] items IH]; intros acc; simpl.
  - now rewrite app_nil_r.
  - rewrite IH, scan_files_eq. now rewrite <- app_assoc.
Qed.

(** The collector always returns: its trace and its result in closed form. *)
Lemma get_project_files_run (w : World) :
  get_project_files w = (collect_events w, Returned (project_files w)).
Proof.
  unfold get_project_files, collect_events, project_files,
    root_events, root_files, bind, env_get, os_path_exists, os_walk, ret.
  fold SRC INC. simpl.
  destruct (getenv w SRC) as [p|]; destruct (getenv w INC) as [q|]; simpl;
    unfold bind, ret; simpl;
    repeat match goal with
      | |- context [String.eqb ?s EmptyString] =>
          destruct (String.eqb s EmptyString); simpl
      | |- context [fs_lookup w ?s] =>
          destruct (fs_lookup w s) eqn:?; simpl
      end;
    rewrite ?scan_walk_eq, ?app_nil_r; simpl; congruence.
Qed.

End CollectFacts.

(* ================================================================== *)
(** ** The targets in closed form *)

Module RunFacts.
Import PyStr OsPath Collect Run CollectFacts.

Lemma install_ok (w : World) :
  pip_returncode w = 0%Z ->
  install_clang_format w = (install_events w, Returned tt).
Proof.
  intros H. unfold install_clang_format, bind, print, emit, check_call, ret.
  now rewrite H.
Qed.

Lemma install_failed (w : World) :
  pip_returncode w <> 0%Z ->
  install_clang_format w = (install_failed_events w, Exited 1%Z).
Proof.
  intros H. unfold install_clang_format, bind, print, emit, check_call, env_Exit.
  apply Z.eqb_neq in H. now rewrite H.
Qed.

Lemma verify_loop_run (w : World) (files : list string) (n : nat) :
  for_fold files verify_one n w
  = (flat_map (verify_events w) files, Returned (n + failing w files)).
Proof.
  revert n. induction files as [|f files IH]; intros n; simpl.
  - unfold ret, failing. simpl. now rewrite Nat.add_0_r.
  - unfold bind at 1. unfold verify_one at 1, bind, subprocess_run, print, emit, ret.
    unfold failing, verify_events, needs_formatting in *. simpl.
    destruct (Z.eqb (run_returncode w (verify_cmd f)) 0); simpl;
      rewrite IH; simpl; do 2 f_equal; lia.
Qed.

Lemma format_loop_run (w : World) (files : list string) :
  for_each files (fun file => _ <- env_Execute (format_cmd file) ;; ret tt) w
  = (format_events files, Returned tt).
Proof.
  unfold for_each, format_events.
  set (body := fun (_ : unit) (file : string) =>
                 _ <- env_Execute (format_cmd file) ;; ret tt).
  induction files as [|f files IH]; simpl; [reflexivity |].
  unfold bind at 1.
  change (body tt f w) with ([EvExecute (format_cmd f)], Returned tt).
  cbv beta iota. now rewrite IH.
Qed.

(** A whole [verify] run after a successful installation, with files. *)
Lemma verify_run (w : World) :
  pip_returncode w = 0%Z ->
  project_files w <> [] ->
  verify_callback w
  = (install_events w ++ collect_events w
       ++ EvPrint ("Verifying " ++ str (List.length (project_files w)) ++ " files...")%string
       :: flat_map (verify_events w) (project_files w)
       ++ summary_events (failing w (project_files w)),
     if Nat.ltb 0 (failing w (project_files w)) then Exited 1%Z else Returned tt).
Proof.
  intros Hpip Hne. unfold verify_callback.
  unfold bind at 1. rewrite (install_ok w Hpip).
  unfold bind at 1. rewrite get_project_files_run.
  destruct (project_files w) as [|f files] eqn:E; [congruence |].
  unfold bind at 1. unfold print at 1, emit.
  unfold bind at 1. rewrite verify_loop_run. rewrite Nat.add_0_l.
  unfold summary_events.
  destruct (Nat.ltb 0 (failing w (f :: files))); unfold bind, print, emit, env_Exit;
    simpl; rewrite <- ?app_assoc; reflexivity.
Qed.

(** A whole [format] run after a successful installation, with files. *)
Lemma format_run (w : World) :
  pip_returncode w = 0%Z ->
  project_files w <> [] ->
  format_callback w
  = (install_events w ++ collect_events w
       ++ EvPrint ("Formatting " ++ str (List.length (project_files w)) ++ " files...")%string
       :: format_events (project_files w) ++ [EvPrint "Done!"],
     Returned tt).
Proof.
  intros Hpip Hne. unfold format_callback.
  unfold bind at 1. rewrite (install_ok w Hpip).
  unfold bind at 1. rewrite get_project_files_run.
  destruct (project_files w) as [|f files] eqn:E; [congruence |].
  unfold bind at 1. unfold print at 1, emit.
  unfold bind at 1. rewrite format_loop_run.
  unfold print, emit. simpl. rewrite <- ?app_assoc. reflexivity.
Qed.

(** Either run after a successful installation, without files. *)
Lemma verify_run_empty (w : World) :
  pip_returncode w = 0%Z ->
  project_files w = [] ->
  verify_callback w
  = (install_events w ++ collect_events w
       ++ [EvPrint "No source files found to verify."], Returned tt).
Proof.
  intros Hpip He. unfold verify_callback.
  unfold bind at 1. rewrite (install_ok w Hpip).
  unfold bind at 1. rewrite get_project_files_run, He.
  unfold print, emit. reflexivity.
Qed.

Lemma format_run_empty (w : World) :
  pip_returncode w = 0%Z ->
  project_files w = [] ->
  format_callback w
  = (install_events w ++ collect_events w
       ++ [EvPrint "No source files found to format."], Returned tt).
Proof.
  intros Hpip He. unfold format_callback.
  unfold bind at 1. rewrite (install_ok w Hpip).
  unfold bind at 1. rewrite get_project_files_run, He.
  unfold print, emit. reflexivity.
Qed.

(** Either run after a failed installation. *)
Lemma verify_run_failed (w : World) :
  pip_returncode w <> 0%Z ->
  verify_callback w = (install_failed_events w, Exited 1%Z).
Proof.
  intros H. unfold verify_callback, bind. now rewrite (install_failed w H).
Qed.

Lemma format_run_failed (w : World) :
  pip_returncode w <> 0%Z ->
  format_callback w = (install_failed_events w, Exited 1%Z).
Proof.
  intros H. unfold format_callback, bind. now rewrite (install_failed w H).
Qed.

End RunFacts.

(* ================================================================== *)
(** ** The walk finds the files under a root, each once *)

Module TreeFacts.
Import PyStr OsPath Os Collect Tree StrFacts.

Section NodeInduction.

Variable P : node -> Prop.
Hypothesis P_File : P File.
Hypothesis P_Dir :
  forall es : list entry, Forall (fun e => P (entry_node e)) es -> P (Dir es).

Fixpoint node_induction (n : node) : P n :=
  match n with
  | File => P_File
  | Dir es =>
      P_Dir es ((fix all (l : list entry) : Forall (fun e => P (entry_node e)) l :=
                match l with
                | [] => Forall_nil _
                | e :: l' => Forall_cons e (node_induction (entry_node e)) (all l')
                end) es)
  end.

End NodeInduction.

Lemma walk_Dir (top : string) (es : list entry) :
  walk top (Dir es)
  = (top, dirnames es, filenames es)
      :: flat_map (fun e : entry =>
                     if is_dir (entry_node e) && negb (entry_islink e)
                     then walk (join top (entry_name e)) (entry_node e)
                     else []) es.
Proof.
  simpl. f_equal. apply flat_map_ext. now intros [[d l] c].
Qed.

Lemma rel_files_Dir (es : list entry) :
  rel_files (Dir es)
  = matching (filenames es)
      ++ flat_map (fun e : entry =>
                     if is_dir (entry_node e) && negb (entry_islink e)
                     then map (fun r => (entry_name e ++ sep ++ r)%string)
                              (rel_files (entry_node e))
                     else []) es.
Proof.
  simpl. f_equal. apply flat_map_ext. now intros [[d l] c].
Qed.

Lemma in_filenames (es : list entry) (name : string) :
  In name (filenames es) <-> exists islink, In (name, islink, File) es.
Proof.
  unfold filenames. rewrite in_map_iff. split.
  - intros [[[d l] c] [E H]]. apply filter_In in H. destruct H as [H Hc].
    unfold entry_name, entry_node in *. simpl in *. subst d.
    destruct c; [now exists l | discriminate].
  - intros [l H]. exists (name, l, File). split; [reflexivity |].
    apply filter_In. now split.
Qed.

(** Soundness: what the walk lists is discovered. *)
Lemma walk_discovered (n : node) :
  forall top dir dirs files name,
    In (dir, dirs, files) (walk top n) -> In name files ->
    discovered top n dir name.
Proof.
  induction n as [|es IH] using node_induction; intros top dir dirs files name Hin Hname.
  - contradiction.
  - rewrite walk_Dir in Hin. destruct Hin as [E | Hin].
    + injection E as <- _ <-. apply in_filenames in Hname.
      destruct Hname as [l Hl]. eapply disc_here; eassumption.
    + apply in_flat_map in Hin. destruct Hin as [[[d l] c] [He Hin]].
      unfold entry_node, entry_islink, entry_name in Hin. simpl in Hin.
      destruct (is_dir c) eqn:Hc; [| contradiction].
      destruct l; [contradiction |]. simpl in Hin.
      rewrite Forall_forall in IH.
      eapply disc_below; [exact He |].
      eapply (IH _ He); eassumption.
Qed.

(** Completeness: what is discovered, the walk lists. *)
Lemma discovered_walk (top : string) (n : node) (dir name : string) :
  discovered top n dir name ->
  exists dirs files, In (dir, dirs, files) (walk top n) /\ In name files.
Proof.
  induction 1 as [top es name l H | top es d c dir name H _ IH].
  - exists (dirnames es), (filenames es). rewrite walk_Dir. split.
    + now left.
    + apply in_filenames. now exists l.
  - destruct IH as [dirs [files [Hin Hname]]].
    exists dirs, files. split; [| exact Hname].
    rewrite walk_Dir. right. apply in_flat_map.
    exists (d, false, c). split; [exact H |].
    unfold entry_node, entry_islink, entry_name. simpl.
    destruct c; [contradiction | exact Hin].
Qed.

(** The paths collected from one walk are the files found under its root. *)
Lemma walk_files_found (top : string) (n : node) (p : string) :
  In p (walk_files (walk top n)) <-> found_under top n p.
Proof.
  unfold walk_files, found_under. rewrite in_flat_map. split.
  - intros [[[dir dirs] files] [Hin Hp]]. simpl in Hp.
    apply in_map_iff in Hp. destruct Hp as [name [Ep Hname]].
    apply filter_In in Hname. destruct Hname as [Hname Hext].
    exists dir, name. repeat split; [| exact Hext | now symmetry].
    eapply walk_discovered; eassumption.
  - intros [dir [name [Hd [Hext Ep]]]].
    apply discovered_walk in Hd. destruct Hd as [dirs [files [Hin Hname]]].
    exists (dir, dirs, files). split; [exact Hin |]. simpl.
    apply in_map_iff. exists name. split; [now symmetry |].
    apply filter_In. now split.
Qed.

Lemma root_files_found (w : World) (key p : string) :
  In p (root_files w (getenv w key)) <-> found w key p.
Proof.
  unfold root_files, found, falsy. destruct (getenv w key) as [top|].
  - destruct (String.eqb_spec top EmptyString) as [E|E].
    + split; [contradiction |]. intros [t [n [Ht [Hne _]]]]. congruence.
    + destruct (fs_lookup w top) as [n|] eqn:El.
      * rewrite walk_files_found. split.
        -- intros H. now exists top, n.
        -- intros [t [n' [Ht [_ [Hl H]]]]]. congruence.
      * split; [contradiction |]. intros [t [n' [Ht [_ [Hl _]]]]]. congruence.
  - split; [contradiction |]. intros [t [n [Ht _]]]. discriminate.
Qed.

(** Distinct entry names give distinct file names. *)
Lemma filenames_NoDup (es : list entry) :
  NoDup (map entry_name es) -> NoDup (filenames es).
Proof.
  unfold filenames. induction es as [|e es IH]; intros Hnd; [constructor |].
  cbn [map] in Hnd. apply NoDup_cons_iff in Hnd. destruct Hnd as [Hfresh Hnd].
  cbn [filter]. destruct (negb (is_dir (entry_node e))); [| now apply IH].
  cbn [map]. constructor; [| now apply IH].
  intros Hin. apply Hfresh. apply in_map_iff in Hin. destruct Hin as [x [E Hx]].
  apply filter_In in Hx. destruct Hx as [Hx _]. rewrite <- E. now apply in_map.
Qed.

Lemma NoDup_map_inj {A B : Type} (f : A -> B) (l : list A) :
  (forall x y, f x = f y -> x = y) -> NoDup l -> NoDup (map f l).
Proof.
  intros Hinj. induction 1 as [|a l Ha _ IH]; simpl; constructor; [| exact IH].
  intros Hin. apply in_map_iff in Hin. destruct Hin as [x [E Hx]].
  apply Hinj in E. now subst x.
Qed.

Lemma join_slashed (top name : string) :
  has_sep name = false -> join top name = (slashed top ++ name)%string.
Proof.
  intros H. unfold join, slashed. rewrite (startswith_sep_false name H).
  destruct (String.eqb top EmptyString || endswith top sep); [reflexivity |].
  now rewrite append_assoc.
Qed.

Lemma slashed_join (top d : string) :
  wf_name d -> slashed (join top d) = (slashed top ++ d ++ sep)%string.
Proof.
  intros [Hne Hd]. rewrite (join_slashed top d Hd). unfold slashed at 1.
  rewrite (endswith_sep_false (slashed top) d Hne Hd), orb_false_r.
  destruct (String.eqb_spec (slashed top ++ d)%string EmptyString) as [E|E].
  - apply append_empty in E. contradiction.
  - apply append_assoc.
Qed.

Lemma wf_filename (es : list entry) (name : string) :
  Forall (fun e => wf_name (entry_name e) /\ wf_node (entry_node e)) es ->
  In name (filenames es) -> wf_name name.
Proof.
  intros Hall Hin. apply in_filenames in Hin. destruct Hin as [l Hin].
  rewrite Forall_forall in Hall. apply (Hall _ Hin).
Qed.

(** Under a well-formed tree every collected path is the root, the
    separator, and a relative path. *)
Lemma walk_files_rel (n : node) :
  wf_node n ->
  forall top, walk_files (walk top n) = map (String.append (slashed top)) (rel_files n).
Proof.
  induction n as [|es IH] using node_induction; intros Hwf top; [reflexivity |].
  inversion Hwf as [|es' Hnd Hall]; subst es'.
  rewrite walk_Dir, rel_files_Dir. unfold walk_files. simpl flat_map.
  rewrite map_app. f_equal.
  - apply map_ext_in. intros f Hf. apply join_slashed.
    apply filter_In in Hf. destruct Hf as [Hf _].
    apply (wf_filename es f Hall Hf).
  - clear Hnd Hwf. induction es as [|[[d l] c] es IHes]; [reflexivity |].
    apply Forall_cons_iff in IH. destruct IH as [IHc IH].
    apply Forall_cons_iff in Hall. destruct Hall as [[Hd Hc] Hall].
    simpl flat_map. rewrite flat_map_app, map_app. f_equal; [| now apply IHes].
    unfold entry_node, entry_islink, entry_name in *. simpl in *.
    destruct (is_dir c && negb l); [| reflexivity].
    fold (walk_files (walk (join top d) c)).
    rewrite (IHc Hc), (slashed_join top d Hd), map_map.
    apply map_ext. intros r. now rewrite !append_assoc.
Qed.

Lemma in_rel_sub (es : list entry) (x : string) :
  In x (flat_map (fun e : entry =>
                    if is_dir (entry_node e) && negb (entry_islink e)
                    then map (fun r => (entry_name e ++ sep ++ r)%string)
                             (rel_files (entry_node e))
                    else []) es) ->
  exists e r, In e es /\ x = (entry_name e ++ sep ++ r)%string.
Proof.
  intros H. apply in_flat_map in H. destruct H as [e [He H]].
  destruct (is_dir (entry_node e) && negb (entry_islink e)); [| contradiction].
  apply in_map_iff in H. destruct H as [r [E _]]. now exists e, r.
Qed.

(** The relative paths of a well-formed tree are pairwise distinct. *)
Lemma rel_files_NoDup (n : node) : wf_node n -> NoDup (rel_files n).
Proof.
  induction n as [|es IH] using node_induction; intros Hwf; [constructor |].
  inversion Hwf as [|es' Hnd Hall]; subst es'.
  rewrite rel_files_Dir. apply NoDup_app.
  - apply NoDup_filter. now apply filenames_NoDup.
  - clear Hwf. induction es as [|e es IHes]; [constructor |].
    apply Forall_cons_iff in IH. destruct IH as [IHc IH].
    apply Forall_cons_iff in Hall. destruct Hall as [[Hd Hc] Hall].
    simpl map in Hnd. apply NoDup_cons_iff in Hnd. destruct Hnd as [Hfresh Hnd].
    simpl flat_map. apply NoDup_app.
    + destruct (is_dir (entry_node e) && negb (entry_islink e)); [| constructor].
      apply NoDup_map_inj; [| now apply IHc].
      intros x y E. apply append_inj_l in E. now apply (append_inj_l sep) in E.
    + now apply IHes.
    + intros x Hx Hx'.
      destruct (is_dir (entry_node e) && negb (entry_islink e)); [| contradiction].
      apply in_map_iff in Hx. destruct Hx as [r [Ex _]].
      apply in_rel_sub in Hx'. destruct Hx' as [e' [r' [He' Ex']]].
      rewrite Forall_forall in Hall. destruct (Hall _ He') as [[_ Hd'] _].
      rewrite <- Ex in Ex'. apply first_segment in Ex'; [| apply Hd | exact Hd'].
      destruct Ex' as [En _]. apply Hfresh. rewrite En. now apply in_map.
  - intros x Hx Hx'. apply filter_In in Hx. destruct Hx as [Hx _].
    destruct (wf_filename es x Hall Hx) as [_ Hsep].
    apply in_rel_sub in Hx'. destruct Hx' as [e [r [_ Ex]]].
    rewrite Ex, !has_sep_append, has_sep_sep in Hsep.
    rewrite orb_true_r in Hsep. discriminate.
Qed.

(** One walk of a well-formed tree collects no path twice. *)
Lemma walk_files_NoDup (top : string) (n : node) :
  wf_node n -> NoDup (walk_files (walk top n)).
Proof.
  intros Hwf. rewrite (walk_files_rel n Hwf).
  apply NoDup_map_inj; [| now apply rel_files_NoDup].
  intros x y. apply append_inj_l.
Qed.

Lemma root_files_NoDup (w : World) (key : string) :
  roots_wf w -> In key [SRC; INC] -> NoDup (root_files w (getenv w key)).
Proof.
  intros Hwf Hkey. unfold root_files.
  destruct (getenv w key) as [top|] eqn:Et; [| constructor].
  destruct (falsy (Some top)); [constructor |].
  destruct (fs_lookup w top) as [n|] eqn:El; [| constructor].
  apply walk_files_NoDup. exact (Hwf key top n Hkey Et El).
Qed.

End TreeFacts.

(* ================================================================== *)
(** ** More on traces and paths *)

Module TraceFacts.
Import PyStr OsPath Os Collect Run Tree Disk StrFacts CollectFacts RunFacts TreeFacts.

Lemma collect_events_no_spawn (w : World) :
  filter is_spawn (collect_events w) = [].
Proof.
  unfold collect_events, root_events. simpl.
  rewrite filter_app.
  destruct (getenv w SRC) as [p|]; destruct (getenv w INC) as [q|]; simpl;
    repeat match goal with
      | |- context [String.eqb ?s EmptyString] =>
          destruct (String.eqb s EmptyString); simpl
      | |- context [fs_lookup w ?s] =>
          destruct (fs_lookup w s); simpl
      end; reflexivity.
Qed.

Lemma collect_events_quiet (w : World) :
  Forall (fun e => is_formatter_call e = false) (collect_events w).
Proof.
  unfold collect_events, root_events.
  repeat constructor. apply Forall_app. split.
  - destruct (getenv w SRC) as [p|]; [| constructor].
    destruct (falsy (Some p)); [constructor |].
    destruct (fs_lookup w p); repeat constructor.
  - destruct (getenv w INC) as [p|]; [| constructor].
    destruct (falsy (Some p)); [constructor |].
    destruct (fs_lookup w p); repeat constructor.
Qed.

Lemma verify_events_runs (w : World) (files : list string) :
  filter is_formatter_call (flat_map (verify_events w) files)
  = map (fun f => EvRun (verify_cmd f)) files.
Proof.
  induction files as [|f files IH]; simpl; [reflexivity |]. now rewrite IH.
Qed.

Lemma summary_events_prints (n : nat) :
  Forall (fun e => is_print e = true) (summary_events n).
Proof. unfold summary_events. destruct (Nat.ltb 0 n); repeat constructor. Qed.

Lemma prints_quiet (t : list Event) :
  Forall (fun e => is_print e = true) t -> filter is_formatter_call t = [].
Proof.
  induction 1 as [|e t He _ IH]; simpl; [reflexivity |].
  destruct e; try discriminate. exact IH.
Qed.

Lemma quiet_filter (t : list Event) :
  Forall (fun e => is_formatter_call e = false) t -> filter is_formatter_call t = [].
Proof.
  induction 1 as [|e t He _ IH]; simpl; [reflexivity |]. now rewrite He.
Qed.

(** After a successful installation [format_callback] returns. *)
Lemma format_returns (w : World) :
  pip_returncode w = 0%Z -> snd (format_callback w) = Returned tt.
Proof.
  intros Hpip. destruct (project_files w) as [|f files] eqn:E.
  - now rewrite (format_run_empty w Hpip E).
  - rewrite (format_run w Hpip); [reflexivity | congruence].
Qed.

(** A file that is not a directory contributes nothing as a root. *)
Lemma root_files_regular (w : World) (top : string) :
  fs_lookup w top = Some File -> root_files w (Some top) = [].
Proof.
  intros H. unfold root_files. destruct (falsy (Some top)); [reflexivity |].
  now rewrite H.
Qed.

Lemma root_files_without (w : World) (top : string) (folder : option string) :
  fs_lookup w top = Some File ->
  root_files (without_path top w) folder = root_files w folder.
Proof.
  intros H. unfold root_files. destruct folder as [q|]; [| reflexivity].
  destruct (falsy (Some q)); [reflexivity |]. simpl.
  destruct (String.eqb_spec q top) as [E|E]; [| reflexivity].
  subst q. now rewrite H.
Qed.

Lemma endswith_has_sep (s : string) : endswith s sep = true -> has_sep s = true.
Proof.
  intros H. apply endswith_spec in H. destruct H as [pre ->].
  rewrite has_sep_append, has_sep_sep. apply orb_true_r.
Qed.

Lemma basename_plain (name : string) : has_sep name = false -> basename name = name.
Proof.
  destruct name as [|c name]; [reflexivity |]. simpl. intros H.
  apply orb_false_elim in H. destruct H as [Hc Hn]. now rewrite Hn, Hc.
Qed.

(** The base name of a directory prefix and a name is the name. *)
Lemma basename_prefixed (a name : string) :
  a = EmptyString \/ endswith a sep = true ->
  has_sep name = false -> basename (a ++ name)%string = name.
Proof.
  intros Ha Hn. induction a as [|c a IH]; [now apply basename_plain |].
  destruct Ha as [Ha | Ha]; [discriminate |].
  change (String c a ++ name)%string with (String c (a ++ name)%string).
  cbn [basename]. rewrite has_sep_append, Hn, orb_false_r.
  rewrite endswith_unfold in Ha.
  destruct (String.eqb_spec (String c a) sep) as [E|E].
  - unfold sep in E. injection E as -> ->. reflexivity.
  - destruct a as [|c' a']; [discriminate |].
    rewrite (endswith_has_sep _ Ha). apply IH. now right.
Qed.

Lemma slashed_shape (top : string) :
  slashed top = EmptyString \/ endswith (slashed top) sep = true.
Proof.
  unfold slashed. destruct (String.eqb_spec top EmptyString) as [E|E]; simpl.
  - now left.
  - destruct (endswith top sep) eqn:H; [now right |].
    right. apply endswith_spec. now exists top.
Qed.

Lemma basename_join (dir name : string) :
  has_sep name = false -> basename (join dir name) = name.
Proof.
  intros H. rewrite (join_slashed dir name H).
  apply basename_prefixed; [apply slashed_shape | exact H].
Qed.

Lemma discovered_wf_name (top : string) (n : node) (dir name : string) :
  discovered top n dir name -> wf_node n -> wf_name name.
Proof.
  induction 1 as [top es name l H | top es d c dir name H _ IH]; intros Hwf;
    inversion Hwf as [|es' _ Hall]; subst es'; rewrite Forall_forall in Hall.
  - apply (Hall _ H).
  - apply IH. apply (Hall _ H).
Qed.

End TraceFacts.

(* ================================================================== *)
(** * The targets *)

Import PyStr OsPath Os Collect Run Tree Disk.
Import StrFacts CollectFacts RunFacts TreeFacts TraceFacts.

(** Finds an event in a trace given in closed form. *)
Ltac find_event :=
  cbn [fst snd]; repeat (rewrite in_app_iff || cbn [In]); intuition auto.

(** C1. In verify mode, after a successful installation, let [N] be the
    number of collected files whose check returns a non-zero status.  If
    [N > 0] the run leaves through [env.Exit(1)], a non-zero exit status,
    and has printed the line [FAILED: N file(s) need formatting.] with [N]
    in decimal.  If [N = 0] the exit status is 0 and, files having been
    checked, the line [SUCCESS: All files are formatted correctly.] has been
    printed (with no file collected the line printed is the one that says no
    source files were found). *)
Theorem verify_exit_reports_count (w : World) (files : list string) :
  pip_returncode w = 0%Z ->
  snd (get_project_files w) = Returned files ->
  let N := failing w files in
  (0 < N ->
   snd (verify_callback w) = Exited 1%Z
   /\ exit_status (snd (verify_callback w)) <> 0%Z
   /\ In (EvPrint (nl ++ "FAILED: " ++ str N ++ " file(s) need formatting.")%string)
        (fst (verify_callback w)))
  /\ (N = 0 ->
      exit_status (snd (verify_callback w)) = 0%Z
      /\ (files <> [] ->
          In (EvPrint (nl ++ "SUCCESS: All files are formatted correctly.")%string)
             (fst (verify_callback w)))
      /\ (files = [] ->
          In (EvPrint "No source files found to verify.") (fst (verify_callback w)))).
Proof.
  intros Hpip Hfiles N. rewrite get_project_files_run in Hfiles.
  simpl in Hfiles. injection Hfiles as Hfiles. subst files. split.
  - intros HN.
    assert (Hne : project_files w <> []).
    { intros E. unfold N in HN. rewrite E in HN. inversion HN. }
    rewrite (verify_run w Hpip Hne). fold N.
    assert (Hlt : Nat.ltb 0 N = true) by now apply Nat.ltb_lt.
    unfold summary_events. rewrite Hlt.
    split; [reflexivity |]. split; [discriminate | find_event].
  - intros HN. destruct (project_files w) as [|f fs] eqn:E.
    + rewrite (verify_run_empty w Hpip E).
      split; [reflexivity |]. split; [congruence | intros _; find_event].
    + assert (Hne : project_files w <> []) by congruence.
      rewrite (verify_run w Hpip Hne). rewrite E. fold N. rewrite HN.
      unfold summary_events. cbn [Nat.ltb Nat.leb].
      split; [reflexivity |]. split; [intros _; find_event | discriminate].
Qed.

Lemma verify_exit_reports_count_witness :
  snd (verify_callback Demo.example) = Exited 1%Z
  /\ In (EvPrint (nl ++ "FAILED: 1 file(s) need formatting.")%string)
        (fst (verify_callback Demo.example))
  /\ exit_status (snd (verify_callback Demo.example_clean)) = 0%Z
  /\ In (EvPrint (nl ++ "SUCCESS: All files are formatted correctly.")%string)
        (fst (verify_callback Demo.example_clean)).
Proof.
  pose proof (verify_exit_reports_count Demo.example ["src/a.cpp"]
                eq_refl eq_refl) as [Hbad _].
  pose proof (verify_exit_reports_count Demo.example_clean ["src/a.cpp"]
                eq_refl eq_refl) as [_ Hgood].
  destruct (Hbad (le_n 1)) as [Hexit [_ Hline]].
  destruct (Hgood eq_refl) as [Hzero [Hok _]].
  split; [exact Hexit |]. split; [exact Hline |]. split; [exact Hzero |].
  apply Hok. discriminate.
Defined.

(** C3. In format mode, whenever the installation succeeds, the exit status
    is 0 whatever [env.Execute] returns for the files: for any two
    assignments of statuses to the formatter's commands on the same host,
    the same files are collected and both runs return with exit status 0. *)
Theorem format_exit_ignores_file_outcomes (w : World) (st1 st2 : string -> Z) :
  pip_returncode w = 0%Z ->
  snd (get_project_files (with_execute_status st1 w))
  = snd (get_project_files (with_execute_status st2 w))
  /\ exit_status (snd (format_callback (with_execute_status st1 w))) = 0%Z
  /\ exit_status (snd (format_callback (with_execute_status st2 w))) = 0%Z
  /\ snd (format_callback (with_execute_status st1 w))
     = snd (format_callback (with_execute_status st2 w)).
Proof.
  intros Hpip.
  assert (H1 : pip_returncode (with_execute_status st1 w) = 0%Z) by exact Hpip.
  assert (H2 : pip_returncode (with_execute_status st2 w) = 0%Z) by exact Hpip.
  rewrite !get_project_files_run, (format_returns _ H1), (format_returns _ H2).
  repeat split.
Qed.

Lemma format_exit_ignores_file_outcomes_witness :
  exit_status (snd (format_callback
                      (with_execute_status (fun _ => 0%Z) Demo.example))) = 0%Z
  /\ exit_status (snd (format_callback
                         (with_execute_status (fun _ => 1%Z) Demo.example))) = 0%Z.
Proof.
  destruct (format_exit_ignores_file_outcomes Demo.example
              (fun _ => 0%Z) (fun _ => 1%Z) eq_refl) as [_ [H1 [H2 _]]].
  split; [exact H1 | exact H2].
Defined.

(** C4. If the installation fails ([pip] returns a non-zero status), both
    targets print [Error: Failed to install clang-format.] and leave at once
    through [env.Exit(1)]: the whole trace is the announcement, the [pip]
    command and the diagnostic, so no build variable is read, no path is
    looked at or walked, and the formatter is never invoked. *)
Theorem install_failure_aborts (w : World) :
  pip_returncode w <> 0%Z ->
  format_callback w
  = ([EvPrint "Checking for clang-format...";
      EvCheckCall (pip_install_argv w);
      EvPrint "Error: Failed to install clang-format."], Exited 1%Z)
  /\ verify_callback w
     = ([EvPrint "Checking for clang-format...";
         EvCheckCall (pip_install_argv w);
         EvPrint "Error: Failed to install clang-format."], Exited 1%Z)
  /\ exit_status (snd (format_callback w)) <> 0%Z
  /\ exit_status (snd (verify_callback w)) <> 0%Z.
Proof.
  intros H. rewrite (format_run_failed w H), (verify_run_failed w H).
  repeat split; discriminate.
Qed.

Lemma install_failure_aborts_witness :
  snd (format_callback Demo.pip_broken) = Exited 1%Z
  /\ snd (verify_callback Demo.pip_broken) = Exited 1%Z.
Proof.
  assert (H : pip_returncode Demo.pip_broken <> 0%Z) by discriminate.
  destruct (install_failure_aborts Demo.pip_broken H) as [Hf [Hv _]].
  split; [now rewrite Hf | now rewrite Hv].
Defined.

(** C5. The installer asks for nothing about the formatter: on every host,
    also one where [clang-format] is installed already, it runs
    [python -m pip install clang-format]. *)
Theorem install_runs_pip_when_formatter_present :
  (forall w, In (EvCheckCall (pip_install_argv w)) (fst (install_clang_format w)))
  /\ formatter_present Demo.already_installed = true
  /\ install_clang_format Demo.already_installed
     = ([EvPrint "Checking for clang-format...";
         EvCheckCall ["python"; "-m"; "pip"; "install"; "clang-format"]],
        Returned tt).
Proof.
  repeat split.
  intros w. destruct (Z.eq_dec (pip_returncode w) 0) as [H|H].
  - rewrite (install_ok w H). simpl. auto.
  - rewrite (install_failed w H). simpl. auto.
Qed.

(** C6. When the installation succeeds and no file is collected, both
    targets print their line saying that no source files were found and
    return, exit status 0; the only program they have started is the
    installer. *)
Theorem no_files_no_formatter (w : World) :
  pip_returncode w = 0%Z ->
  snd (get_project_files w) = Returned [] ->
  (exit_status (snd (format_callback w)) = 0%Z
   /\ In (EvPrint "No source files found to format.") (fst (format_callback w))
   /\ filter is_spawn (fst (format_callback w)) = [EvCheckCall (pip_install_argv w)])
  /\ (exit_status (snd (verify_callback w)) = 0%Z
      /\ In (EvPrint "No source files found to verify.") (fst (verify_callback w))
      /\ filter is_spawn (fst (verify_callback w)) = [EvCheckCall (pip_install_argv w)]).
Proof.
  intros Hpip Hfiles. rewrite get_project_files_run in Hfiles.
  simpl in Hfiles. injection Hfiles as Hfiles.
  rewrite (format_run_empty w Hpip Hfiles), (verify_run_empty w Hpip Hfiles).
  cbn [fst snd exit_status].
  rewrite !filter_app, collect_events_no_spawn.
  repeat split; try reflexivity; find_event.
Qed.

Lemma no_files_no_formatter_witness :
  exit_status (snd (format_callback Demo.no_sources)) = 0%Z
  /\ exit_status (snd (verify_callback Demo.no_sources)) = 0%Z.
Proof.
  destruct (no_files_no_formatter Demo.no_sources eq_refl eq_refl)
    as [[Hf _] [Hv _]].
  split; [exact Hf | exact Hv].
Defined.

(** C7. Verify mode writes to no file.  On every host the collector
    returns some files, and in the trace of the run there is no
    [env.Execute] at all and every [subprocess.run] is the dry-run command
    [clang-format -n --Werror file] of a collected file; after a successful
    installation every collected file has such a run.  So the contents of the
    project's files after the run are those before it. *)
Theorem verify_mutates_nothing (w : World) :
  exists files,
    snd (get_project_files w) = Returned files
    /\ (forall e, In e (fst (verify_callback w)) ->
        match e with
        | EvExecute _ => False
        | EvRun argv =>
            is_dry_run argv = true
            /\ exists file, In file files /\ argv = verify_cmd file
        | _ => True
        end)
    /\ (pip_returncode w = 0%Z ->
        forall file, In file files ->
                     In (EvRun (verify_cmd file)) (fst (verify_callback w)))
    /\ (forall (Contents : Type) (shell : string -> Contents -> Contents)
               (spawn : list string -> Contents -> Contents) (d : Contents),
           trace_effect Contents shell spawn (fst (verify_callback w)) d = d).
Proof.
  exists (project_files w). rewrite get_project_files_run.
  split; [reflexivity |].
  assert (Hcollect : forall e, In e (collect_events w) ->
                               match e with
                               | EvExecute _ | EvRun _ | EvCheckCall _ | EvPrint _ => False
                               | _ => True
                               end).
  { intros e He. pose proof (collect_events_no_spawn w) as Hs.
    unfold collect_events, root_events in He.
    destruct (getenv w SRC) as [p|]; destruct (getenv w INC) as [q|];
      cbn [In app] in He;
      repeat match type of He with
        | context [falsy ?o] => destruct (falsy o)
        | context [fs_lookup w ?s] => destruct (fs_lookup w s)
        end;
      repeat (rewrite in_app_iff in He || cbn [In app] in He);
      intuition (subst; exact I). }
  assert (Hloop : forall e, In e (flat_map (verify_events w) (project_files w)) ->
                            match e with
                            | EvRun argv =>
                                exists file, In file (project_files w)
                                             /\ argv = verify_cmd file
                            | EvPrint _ => True
                            | _ => False
                            end).
  { intros e He. apply in_flat_map in He. destruct He as [f [Hf He]].
    destruct He as [<- | [<- | []]]; [now exists f | exact I]. }
  assert (Hshape : forall e, In e (fst (verify_callback w)) ->
                             match e with
                             | EvExecute _ => False
                             | EvRun argv =>
                                 exists file, In file (project_files w)
                                              /\ argv = verify_cmd file
                             | _ => True
                             end).
  { intros e He.
    destruct (Z.eq_dec (pip_returncode w) 0) as [Hpip|Hpip].
    - destruct (project_files w) as [|f fs] eqn:E.
      + rewrite (verify_run_empty w Hpip E) in He. cbn [fst] in He.
        repeat (rewrite in_app_iff in He || cbn [In install_events] in He).
        destruct He as [[<- | [<- | []]] | [He | [<- | []]]]; try exact I.
        apply Hcollect in He. destruct e; tauto.
      + assert (Hne : project_files w <> []) by congruence.
        rewrite (verify_run w Hpip Hne) in He. cbn [fst] in He. rewrite E in *.
        repeat (rewrite in_app_iff in He || cbn [In install_events] in He).
        destruct He as [[<- | [<- | []]] | [He | [<- | [He | He]]]]; try exact I.
        * apply Hcollect in He. destruct e; tauto.
        * apply Hloop in He. destruct e; tauto.
        * pose proof (summary_events_prints (failing w (f :: fs))) as Hp.
          rewrite Forall_forall in Hp. apply Hp in He.
          destruct e; first [exact I | discriminate].
    - rewrite (verify_run_failed w Hpip) in He. cbn [fst] in He.
      unfold install_failed_events, install_events in He. cbn [In app] in He.
      destruct He as [<- | [<- | [<- | []]]]; exact I. }
  split; [| split].
  - intros e He. specialize (Hshape e He). destruct e; try exact Hshape.
    split; [| exact Hshape]. destruct Hshape as [f [_ ->]]. reflexivity.
  - intros Hpip file Hfile.
    assert (Hne : project_files w <> []).
    { intros E. rewrite E in Hfile. contradiction. }
    rewrite (verify_run w Hpip Hne). cbn [fst].
    apply in_or_app. right. apply in_or_app. right. right.
    apply in_or_app. left. apply in_flat_map. exists file.
    split; [exact Hfile | now left].
  - intros Contents shell spawn d. unfold trace_effect.
    revert d Hshape. generalize (fst (verify_callback w)) as t.
    induction t as [|e t IH]; intros d Hshape; [reflexivity |].
    cbn [fold_left].
    assert (He : event_effect Contents shell spawn d e = d).
    { specialize (Hshape e (or_introl eq_refl)).
      destruct e; try reflexivity; [contradiction |].
      destruct Hshape as [f [_ ->]]. reflexivity. }
    rewrite He. apply IH. intros e' He'. apply Hshape. now right.
Qed.

(** C9. In verify mode a failing check stops nothing.  After a successful
    installation the trace is: what comes before the loop, where the
    formatter is not invoked; then, for every collected file in order, its
    check and its status line, whatever the statuses are; then only printed
    lines.  The run leaves through [env.Exit(1)] exactly when the number of
    failed checks is not zero, and that exit ends the trace. *)
Theorem verify_checks_every_file (w : World) (files : list string) :
  pip_returncode w = 0%Z ->
  snd (get_project_files w) = Returned files ->
  (exists before after,
      fst (verify_callback w) = before ++ flat_map (verify_events w) files ++ after
      /\ Forall (fun e => is_formatter_call e = false) before
      /\ Forall (fun e => is_print e = true) after)
  /\ filter is_formatter_call (fst (verify_callback w))
     = map (fun file => EvRun (verify_cmd file)) files
  /\ (snd (verify_callback w) = Exited 1%Z <-> 0 < failing w files)
  /\ (snd (verify_callback w) = Returned tt <-> failing w files = 0).
Proof.
  intros Hpip Hfiles. rewrite get_project_files_run in Hfiles.
  simpl in Hfiles. injection Hfiles as Hfiles. subst files.
  destruct (project_files w) as [|f fs] eqn:E.
  - rewrite (verify_run_empty w Hpip E). cbn [fst snd flat_map app].
    split; [| split; [| split]].
    + exists (install_events w ++ collect_events w),
        [EvPrint "No source files found to verify."].
      split; [now rewrite <- app_assoc |]. split; [| repeat constructor].
      apply Forall_app. split; [repeat constructor | apply collect_events_quiet].
    + rewrite !filter_app, (quiet_filter _ (collect_events_quiet w)). reflexivity.
    + unfold failing. simpl. split; [discriminate | intros H; inversion H].
    + unfold failing. simpl. split; reflexivity.
  - assert (Hne : project_files w <> []) by congruence.
    rewrite (verify_run w Hpip Hne). rewrite E. cbn [fst snd].
    set (N := failing w (f :: fs)).
    split; [| split; [| split]].
    + exists (install_events w ++ collect_events w
                ++ [EvPrint ("Verifying " ++ str (List.length (f :: fs)) ++ " files...")%string]),
        (summary_events N).
      split; [now rewrite <- !app_assoc |].
      split; [| apply summary_events_prints].
      apply Forall_app. split; [repeat constructor |].
      apply Forall_app. split; [apply collect_events_quiet | repeat constructor].
    + rewrite filter_app, filter_app. cbn [filter is_formatter_call install_events app].
      rewrite filter_app, verify_events_runs.
      rewrite (quiet_filter _ (collect_events_quiet w)).
      rewrite (prints_quiet _ (summary_events_prints N)).
      now rewrite app_nil_r.
    + destruct (Nat.ltb_spec 0 N) as [H|H].
      * split; [intros _; exact H | reflexivity].
      * split; [discriminate | lia].
    + destruct (Nat.ltb_spec 0 N) as [H|H].
      * split; [discriminate | lia].
      * split; [lia | reflexivity].
Qed.

Lemma verify_checks_every_file_witness :
  filter is_formatter_call (fst (verify_callback Demo.example))
  = [EvRun ["clang-format"; "-n"; "--Werror"; "src/a.cpp"]]
  /\ snd (verify_callback Demo.example) = Exited 1%Z.
Proof.
  destruct (verify_checks_every_file Demo.example ["src/a.cpp"] eq_refl eq_refl)
    as [_ [Hruns [Hexit _]]].
  split; [exact Hruns |]. apply Hexit. apply le_n.
Defined.

(** C10. A configured root that exists but is a regular file stops
    nothing: the collector returns, and returns what it returns when that
    root is unset and when nothing exists at that path; no file is found
    under such a root. *)
Theorem regular_file_root_is_skipped (w : World) (key top : string) :
  In key [SRC; INC] ->
  getenv w key = Some top ->
  fs_lookup w top = Some File ->
  exists files,
    snd (get_project_files w) = Returned files
    /\ snd (get_project_files (unset key w)) = Returned files
    /\ snd (get_project_files (without_path top w)) = Returned files
    /\ (forall p, ~ found w key p).
Proof.
  intros Hkey Henv Hfile. exists (project_files w).
  rewrite !get_project_files_run. cbn [snd].
  split; [reflexivity |]. split; [| split].
  - f_equal. unfold project_files.
    change (root_files (unset key w)) with (root_files w).
    destruct Hkey as [<- | [<- | []]]; cbn [unset getenv];
      rewrite ?String.eqb_refl; rewrite Henv, (root_files_regular w top Hfile);
      reflexivity.
  - f_equal. unfold project_files. cbn [without_path getenv].
    now rewrite !(root_files_without w top _ Hfile).
  - intros p Hp. apply root_files_found in Hp.
    rewrite Henv, (root_files_regular w top Hfile) in Hp. contradiction.
Qed.

Lemma regular_file_root_is_skipped_witness :
  snd (get_project_files Demo.root_is_file) = Returned ["src/a.cpp"]
  /\ snd (get_project_files (unset SRC Demo.root_is_file)) = Returned ["src/a.cpp"].
Proof.
  destruct (regular_file_root_is_skipped Demo.root_is_file SRC "main.c"
              (or_introl eq_refl) eq_refl eq_refl) as [files [H1 [H2 _]]].
  assert (E : files = ["src/a.cpp"]).
  { rewrite get_project_files_run in H1. cbn [snd] in H1.
    injection H1 as H1. rewrite <- H1. reflexivity. }
  rewrite <- E. split; [exact H1 | exact H2].
Defined.

(* ================================================================== *)
(** * The collector *)

(** Settles that a concrete tree is well formed. *)
Ltac wf_tree :=
  repeat first
    [ apply wf_File
    | apply wf_Dir
    | apply Forall_nil
    | apply Forall_cons
    | apply NoDup_nil
    | apply NoDup_cons
    | split
    | discriminate
    | reflexivity
    | (intros H; cbn in H; intuition discriminate) ].

Lemma roots_wf_same_roots : roots_wf Demo.same_roots.
Proof.
  intros key top n Hkey Henv Hfs.
  destruct Hkey as [<- | [<- | []]]; cbn in Henv; injection Henv as <-;
    cbn in Hfs; injection Hfs as <-; wf_tree.
Qed.

Lemma roots_wf_two_roots : roots_wf Demo.two_roots.
Proof.
  intros key top n Hkey Henv Hfs.
  destruct Hkey as [<- | [<- | []]]; cbn in Henv; injection Henv as <-;
    cbn in Hfs; injection Hfs as <-; wf_tree.
Qed.

(** C2, as stated, fails: with both roots naming the same directory the
    collector returns its file twice. *)
Lemma collector_returns_duplicates :
  roots_wf Demo.same_roots
  /\ snd (get_project_files Demo.same_roots) = Returned ["src/a.c"; "src/a.c"]
  /\ ~ (forall w files,
           snd (get_project_files w) = Returned files -> NoDup files).
Proof.
  split; [exact roots_wf_same_roots |]. split; [reflexivity |].
  intros H. specialize (H Demo.same_roots ["src/a.c"; "src/a.c"] eq_refl).
  apply NoDup_cons_iff in H. destruct H as [H _]. apply H. now left.
Qed.

(** C2, amended.  For every configuration of the two roots the collector
    returns (it raises nothing): first the files of the source root, then
    those of the include root.  A root contributes exactly the files
    recursively discovered under it whose name ends with a recognized
    extension, and nothing when it is unset, empty or does not exist.  In a
    well-formed tree each root contributes each such file once; so the result
    holds a path once for every root it is found under, and holds no path
    twice when no path is found under both roots. *)
Theorem collector_per_root (w : World) :
  exists from_src from_inc,
    snd (get_project_files w) = Returned (from_src ++ from_inc)
    /\ (forall p, In p from_src <-> found w SRC p)
    /\ (forall p, In p from_inc <-> found w INC p)
    /\ (roots_wf w ->
        NoDup from_src /\ NoDup from_inc
        /\ ((forall p, ~ (found w SRC p /\ found w INC p)) ->
            NoDup (from_src ++ from_inc))).
Proof.
  exists (root_files w (getenv w SRC)), (root_files w (getenv w INC)).
  rewrite get_project_files_run. split; [reflexivity |].
  split; [intros p; apply root_files_found |].
  split; [intros p; apply root_files_found |].
  intros Hwf.
  assert (Hs : NoDup (root_files w (getenv w SRC))).
  { apply root_files_NoDup; [exact Hwf | now left]. }
  assert (Hi : NoDup (root_files w (getenv w INC))).
  { apply root_files_NoDup; [exact Hwf | right; now left]. }
  split; [exact Hs |]. split; [exact Hi |].
  intros Hdisj. apply NoDup_app; [exact Hs | exact Hi |].
  intros p Hp Hp'. apply (Hdisj p). split; now apply root_files_found.
Qed.

Lemma collector_per_root_witness :
  exists files,
    snd (get_project_files Demo.two_roots) = Returned files /\ NoDup files.
Proof.
  destruct (collector_per_root Demo.two_roots)
    as [from_src [from_inc [Hrun [Hsrc [Hinc Hwf]]]]].
  exists (from_src ++ from_inc). split; [exact Hrun |].
  destruct (Hwf roots_wf_two_roots) as [_ [_ Hnodup]].
  apply Hnodup. intros p [Hp Hp'].
  apply root_files_found in Hp. apply root_files_found in Hp'.
  cbn in Hp, Hp'. destruct Hp as [<- | []]. destruct Hp' as [E | []].
  discriminate E.
Defined.



(* ================================================================== *)
(** * Further properties *)

Module ExtraFacts.
Import PyStr OsPath Os Collect Run Tree Disk.
Import StrFacts CollectFacts RunFacts TreeFacts TraceFacts.

Lemma filter_none (f : Event -> bool) (t : list Event) :
  Forall (fun e => f e = false) t -> filter f t = [].
Proof.
  induction 1 as [|e t He _ IH]; simpl; [reflexivity |]. now rewrite He.
Qed.

Lemma no_spawn_no_check_call (t : list Event) :
  filter is_spawn t = [] -> filter is_check_call t = [].
Proof.
  induction t as [|e t IH]; [reflexivity |].
  destruct e; simpl; intros H; try discriminate; now apply IH.
Qed.

Lemma format_events_calls (files : list string) :
  filter is_formatter_call (format_events files) = format_events files.
Proof.
  induction files as [|f files IH]; simpl; [reflexivity |]. now rewrite IH.
Qed.

Lemma format_events_no_check_call (files : list string) :
  filter is_check_call (format_events files) = [].
Proof. induction files as [|f files IH]; simpl; [reflexivity | exact IH]. Qed.

Lemma verify_events_no_check_call (w : World) (files : list string) :
  filter is_check_call (flat_map (verify_events w) files) = [].
Proof. induction files as [|f files IH]; simpl; [reflexivity | exact IH]. Qed.

Lemma summary_events_no_check_call (n : nat) :
  filter is_check_call (summary_events n) = [].
Proof. unfold summary_events. now destruct (Nat.ltb 0 n). Qed.



(** No check fails exactly when every status is 0. *)
Lemma failing_zero (w : World) (files : list string) :
  failing w files = 0
  <-> forall file, In file files -> run_returncode w (verify_cmd file) = 0%Z.
Proof.
  unfold failing, needs_formatting. induction files as [|f files IH]; simpl.
  - split; [intros _ file [] | reflexivity].
  - destruct (Z.eqb_spec (run_returncode w (verify_cmd f)) 0) as [E|E]; simpl.
    + rewrite IH. split.
      * intros H file [<- | Hin]; [exact E | now apply H].
      * intros H file Hin. apply H. now right.
    + split; [discriminate |]. intros H. exfalso. apply E. apply H. now left.
Qed.

(** Some check fails exactly when some status is not 0. *)
Lemma failing_positive (w : World) (files : list string) :
  0 < failing w files
  <-> exists file, In file files /\ run_returncode w (verify_cmd file) <> 0%Z.
Proof.
  unfold failing, needs_formatting. induction files as [|f files IH]; simpl.
  - split; [intros H; inversion H | intros [file [[] _]]].
  - destruct (Z.eqb_spec (run_returncode w (verify_cmd f)) 0) as [E|E]; simpl.
    + rewrite IH. split.
      * intros [file [Hin H]]. exists file. split; [now right | exact H].
      * intros [file [[<- | Hin] H]]; [contradiction | now exists file].
    + split; [| intros _; apply Nat.lt_0_succ].
      intros _. exists f. split; [now left | exact E].
Qed.

Lemma returned_files (w : World) (files : list string) :
  snd (get_project_files w) = Returned files -> files = project_files w.
Proof.
  rewrite get_project_files_run. cbn [snd]. intros H. now injection H.
Qed.

End ExtraFacts.

Import ExtraFacts.

(** X1. In format mode, after a successful installation, the formatter is
    run in place on every collected file, in the order of collection and as
    often as the file occurs in the list, whatever the commands return; with
    files the run announces their number first and prints [Done!] last, and
    it returns. *)
Theorem format_formats_every_file (w : World) (files : list string) :
  pip_returncode w = 0%Z ->
  snd (get_project_files w) = Returned files ->
  filter is_formatter_call (fst (format_callback w))
  = map (fun file => EvExecute (format_cmd file)) files
  /\ snd (format_callback w) = Returned tt
  /\ (files <> [] ->
      exists before,
        fst (format_callback w) = before ++ [EvPrint "Done!"]
        /\ In (EvPrint ("Formatting " ++ str (List.length files) ++ " files...")%string)
              before).
Proof.
  intros Hpip Hfiles. apply returned_files in Hfiles. subst files.
  destruct (project_files w) as [|f fs] eqn:E.
  - rewrite (format_run_empty w Hpip E). cbn [fst snd].
    rewrite !filter_app, (quiet_filter _ (collect_events_quiet w)).
    split; [reflexivity |]. split; [reflexivity | congruence].
  - assert (Hne : project_files w <> []) by congruence.
    rewrite (format_run w Hpip Hne). rewrite E. cbn [fst snd].
    split; [| split; [reflexivity |]].
    + rewrite filter_app, filter_app. cbn [filter is_formatter_call install_events app].
      rewrite filter_app, format_events_calls.
      rewrite (quiet_filter _ (collect_events_quiet w)). cbn [filter is_formatter_call].
      now rewrite app_nil_r.
    + intros _.
      exists (install_events w ++ collect_events w
                ++ EvPrint ("Formatting " ++ str (List.length (f :: fs)) ++ " files...")%string
                :: format_events (f :: fs)).
      split.
      * rewrite <- !app_assoc. reflexivity.
      * apply in_or_app. right. apply in_or_app. right. now left.
Qed.

Lemma format_formats_every_file_witness :
  filter is_formatter_call (fst (format_callback Demo.two_roots))
  = [EvExecute (format_cmd "src/a.cpp"); EvExecute (format_cmd "include/a.h")].
Proof.
  destruct (format_formats_every_file Demo.two_roots ["src/a.cpp"; "include/a.h"]
              eq_refl eq_refl) as [H _].
  exact H.
Defined.

(** X2. Every run of either target starts with the installer: the first
    two events are the announcement and the [pip] command, and no other
    [subprocess.check_call] follows, whether the installation succeeds or
    not and whatever is collected. *)
Theorem installer_runs_first_and_once (w : World) :
  (firstn 2 (fst (format_callback w)) = install_events w
   /\ filter is_check_call (fst (format_callback w)) = [EvCheckCall (pip_install_argv w)])
  /\ (firstn 2 (fst (verify_callback w)) = install_events w
      /\ filter is_check_call (fst (verify_callback w)) = [EvCheckCall (pip_install_argv w)]).
Proof.
  pose proof (no_spawn_no_check_call _ (collect_events_no_spawn w)) as Hc.
  destruct (Z.eq_dec (pip_returncode w) 0) as [Hpip|Hpip].
  - destruct (project_files w) as [|f fs] eqn:E.
    + rewrite (format_run_empty w Hpip E), (verify_run_empty w Hpip E).
      cbn [fst]. rewrite !filter_app, Hc. repeat split.
    + assert (Hne : project_files w <> []) by congruence.
      rewrite (format_run w Hpip Hne), (verify_run w Hpip Hne).
      cbn [fst]. rewrite !filter_app, Hc. cbn [filter is_check_call].
      rewrite !filter_app, format_events_no_check_call,
        verify_events_no_check_call, summary_events_no_check_call.
      repeat split.
  - rewrite (format_run_failed w Hpip), (verify_run_failed w Hpip).
    repeat split.
Qed.

(** X3. After a successful installation the verify target returns exactly
    when the check of every collected file returns status 0, and leaves
    through [env.Exit(1)] exactly when the check of some collected file
    returns another status. *)
Theorem verify_passes_iff_all_clean (w : World) (files : list string) :
  pip_returncode w = 0%Z ->
  snd (get_project_files w) = Returned files ->
  (snd (verify_callback w) = Returned tt
   <-> forall file, In file files -> run_returncode w (verify_cmd file) = 0%Z)
  /\ (snd (verify_callback w) = Exited 1%Z
      <-> exists file, In file files /\ run_returncode w (verify_cmd file) <> 0%Z).
Proof.
  intros Hpip Hfiles. apply returned_files in Hfiles. subst files.
  rewrite <- failing_zero, <- failing_positive.
  destruct (project_files w) as [|f fs] eqn:E.
  - rewrite (verify_run_empty w Hpip E). cbn [snd]. unfold failing. simpl.
    split; split; try reflexivity; try discriminate; intros H; inversion H.
  - assert (Hne : project_files w <> []) by congruence.
    rewrite (verify_run w Hpip Hne). rewrite E. cbn [snd].
    destruct (Nat.ltb_spec 0 (failing w (f :: fs))) as [H|H].
    + split; split; try discriminate; try reflexivity; lia.
    + split; split; try discriminate; try reflexivity; lia.
Qed.

Lemma verify_passes_iff_all_clean_witness :
  snd (verify_callback Demo.example_clean) = Returned tt
  /\ snd (verify_callback Demo.example) = Exited 1%Z.
Proof.
  destruct (verify_passes_iff_all_clean Demo.example_clean ["src/a.cpp"]
              eq_refl eq_refl) as [[_ Hclean] _].
  destruct (verify_passes_iff_all_clean Demo.example ["src/a.cpp"]
              eq_refl eq_refl) as [_ [_ Hbad]].
  split.
  - apply Hclean. intros file [<- | []]. reflexivity.
  - apply Hbad. exists "src/a.cpp". split; [now left | discriminate].
Defined.

(* ================================================================== *)
(** ** More on the collector *)

Module CollectorFacts.
Import PyStr OsPath Os Collect Run Tree Disk.
Import StrFacts CollectFacts RunFacts TreeFacts TraceFacts ExtraFacts.

(** One entry of [check_folders] is handled by what its path resolves to. *)
Lemma root_ext (w w' : World) (folder : option string) :
  (forall p, folder = Some p -> fs_lookup w p = fs_lookup w' p) ->
  root_files w folder = root_files w' folder
  /\ root_events w folder = root_events w' folder.
Proof.
  intros H. unfold root_files, root_events. destruct folder as [p|]; [| now split].
  rewrite (H p eq_refl). now split.
Qed.

Lemma root_events_shape (w : World) (folder : option string) (e : Event) :
  In e (root_events w folder) ->
  exists p, folder = Some p /\ p <> EmptyString
            /\ (e = EvExists p \/ (e = EvWalk p /\ fs_lookup w p <> None)).
Proof.
  unfold root_events, falsy. destruct folder as [p|]; [| contradiction].
  destruct (String.eqb_spec p EmptyString) as [E|E]; [contradiction |].
  destruct (fs_lookup w p) as [n|] eqn:El; cbn [In].
  - intros [<- | [<- | []]]; exists p; repeat split; auto.
    right. split; [reflexivity | congruence].
  - intros [<- | []]. exists p. repeat split; auto.
Qed.

(** [join] keeps its second argument at the end. *)
Lemma join_suffix (a b : string) : exists stem, join a b = (stem ++ b)%string.
Proof.
  unfold join. destruct (startswith b sep); [now exists EmptyString |].
  destruct (String.eqb a EmptyString || endswith a sep); [now exists a |].
  exists (a ++ sep)%string. now rewrite append_assoc.
Qed.

Lemma unique_entry (es : list entry) (e1 e2 : entry) :
  NoDup (map entry_name es) -> In e1 es -> In e2 es ->
  entry_name e1 = entry_name e2 -> e1 = e2.
Proof.
  induction es as [|e es IH]; [contradiction |].
  cbn [map]. intros Hnd H1 H2 E. apply NoDup_cons_iff in Hnd.
  destruct Hnd as [Hfresh Hnd].
  destruct H1 as [<- | H1]; destruct H2 as [<- | H2].
  - reflexivity.
  - exfalso. apply Hfresh. rewrite E. now apply in_map.
  - exfalso. apply Hfresh. rewrite <- E. now apply in_map.
  - now apply IH.
Qed.

(** What format mode runs, after a successful installation. *)
Lemma format_calls (w : World) :
  pip_returncode w = 0%Z ->
  filter is_formatter_call (fst (format_callback w)) = format_events (project_files w).
Proof.
  intros Hpip. destruct (project_files w) as [|f fs] eqn:E.
  - rewrite (format_run_empty w Hpip E). cbn [fst].
    now rewrite !filter_app, (quiet_filter _ (collect_events_quiet w)).
  - assert (Hne : project_files w <> []) by congruence.
    rewrite (format_run w Hpip Hne). rewrite E. cbn [fst].
    rewrite filter_app, filter_app. cbn [filter is_formatter_call install_events app].
    rewrite filter_app, format_events_calls.
    rewrite (quiet_filter _ (collect_events_quiet w)). cbn [filter is_formatter_call].
    now rewrite app_nil_r.
Qed.

End CollectorFacts.

Import CollectorFacts.

(** X4. The collector depends on nothing but the two build variables and
    what their values resolve to: on two hosts that agree on these, it
    performs the same accesses and returns the same list, whatever else
    differs (other variables, other paths, the statuses of commands). *)
Theorem collector_reads_only_its_roots (w w' : World) :
  getenv w SRC = getenv w' SRC ->
  getenv w INC = getenv w' INC ->
  (forall p, getenv w SRC = Some p \/ getenv w INC = Some p ->
             fs_lookup w p = fs_lookup w' p) ->
  get_project_files w = get_project_files w'.
Proof.
  intros Hs Hi Hfs. rewrite !get_project_files_run.
  unfold collect_events, project_files. rewrite <- Hs, <- Hi.
  destruct (root_ext w w' (getenv w SRC)) as [-> ->]; [auto |].
  destruct (root_ext w w' (getenv w INC)) as [-> ->]; [auto |].
  reflexivity.
Qed.

Lemma collector_reads_only_its_roots_witness :
  get_project_files Demo.example = get_project_files Demo.pip_broken.
Proof.
  apply (collector_reads_only_its_roots Demo.example Demo.pip_broken
           eq_refl eq_refl).
  intros p _. reflexivity.
Defined.

(** X5. The collector reads the two variables [PROJECT_SRC_DIR] and
    [PROJECT_INCLUDE_DIR] and nothing else of the environment; it asks
    whether a path exists only for a non-empty value of one of them, walks
    only such a path that exists, and starts no program. *)
Theorem collector_touches_only_its_roots (w : World) (e : Event) :
  In e (fst (get_project_files w)) ->
  match e with
  | EvEnvGet key => key = SRC \/ key = INC
  | EvExists p =>
      p <> EmptyString /\ (getenv w SRC = Some p \/ getenv w INC = Some p)
  | EvWalk p =>
      p <> EmptyString /\ (getenv w SRC = Some p \/ getenv w INC = Some p)
      /\ fs_lookup w p <> None
  | _ => False
  end.
Proof.
  rewrite get_project_files_run. cbn [fst]. unfold collect_events.
  intros [<- | [<- | He]]; [now left | now right |].
  apply in_app_or in He.
  destruct He as [He | He]; apply root_events_shape in He;
    destruct He as [p [Hp [Hne [-> | [-> Hex]]]]]; auto.
Qed.

Lemma collector_touches_only_its_roots_witness :
  getenv Demo.example SRC = Some "src" /\ fs_lookup Demo.example "src" <> None.
Proof.
  assert (Hin : In (EvWalk "src") (fst (get_project_files Demo.example))).
  { right. right. right. now left. }
  destruct (collector_touches_only_its_roots Demo.example (EvWalk "src") Hin)
    as [_ [[H | H] Hex]].
  - split; [exact H | exact Hex].
  - discriminate H.
Defined.

(** X6. Every collected path ends with one of the recognized extensions.
    In a well-formed tree its base name does too, and the path is the root
    it was found under, with the separator after it, followed by a relative
    path. *)
Theorem collected_paths_shape (w : World) (files : list string) (p : string) :
  snd (get_project_files w) = Returned files ->
  In p files ->
  endswith_any p valid_extensions = true
  /\ (roots_wf w ->
      endswith_any (basename p) valid_extensions = true
      /\ exists key top rel,
          In key [SRC; INC] /\ getenv w key = Some top
          /\ p = (slashed top ++ rel)%string).
Proof.
  intros Hfiles Hp. apply returned_files in Hfiles. subst files.
  assert (Hkey : exists key, In key [SRC; INC] /\ found w key p).
  { unfold project_files in Hp. apply in_app_or in Hp. destruct Hp as [Hp | Hp].
    - exists SRC. split; [now left | now apply root_files_found].
    - exists INC. split; [right; now left | now apply root_files_found]. }
  destruct Hkey as [key [Hkey [top [n [Henv [Hne [Hfs Hfound]]]]]]].
  pose proof Hfound as [dir [name [Hd [Hext Ep]]]].
  split.
  - destruct (join_suffix dir name) as [stem Es]. rewrite Ep, Es.
    apply endswith_any_spec in Hext. destruct Hext as [ext [st [Hin En]]].
    apply endswith_any_spec. exists ext, (stem ++ st)%string.
    split; [exact Hin |]. now rewrite En, append_assoc.
  - intros Hwf. pose proof (Hwf key top n Hkey Henv Hfs) as Hn. split.
    + destruct (discovered_wf_name top n dir name Hd Hn) as [_ Hsep].
      now rewrite Ep, (basename_join dir name Hsep).
    + apply walk_files_found in Hfound. rewrite (walk_files_rel n Hn) in Hfound.
      apply in_map_iff in Hfound. destruct Hfound as [rel [E _]].
      exists key, top, rel. repeat split; auto.
Qed.

Lemma collected_paths_shape_witness :
  endswith_any "src/a.cpp" valid_extensions = true.
Proof.
  destruct (collected_paths_shape Demo.example ["src/a.cpp"] "src/a.cpp"
              eq_refl (or_introl eq_refl)) as [H _].
  exact H.
Defined.


(** X8. A directory is never collected, even when its name ends with a
    recognized extension: in a well-formed tree the path of a sub-directory
    of the root is not in the list. *)
Theorem directory_never_collected
    (top : string) (es : list entry) (d : string) (islink : bool) (cs : list entry) :
  wf_node (Dir es) ->
  In (d, islink, Dir cs) es ->
  ~ In (join top d) (scan_walk (walk top (Dir es)) []).
Proof.
  intros Hwf Hd Hin. rewrite scan_walk_eq in Hin. cbn [app] in Hin.
  rewrite (walk_files_rel (Dir es) Hwf) in Hin.
  inversion Hwf as [|es' Hnd Hall]; subst es'.
  rewrite Forall_forall in Hall. destruct (Hall _ Hd) as [[_ Hsep] _].
  cbn [entry_name fst] in Hsep.
  rewrite (join_slashed top d Hsep) in Hin.
  apply in_map_iff in Hin. destruct Hin as [rel [E Hrel]].
  apply append_inj_l in E. subst rel.
  rewrite rel_files_Dir in Hrel. apply in_app_or in Hrel.
  destruct Hrel as [Hrel | Hrel].
  - apply filter_In in Hrel. destruct Hrel as [Hrel _].
    apply in_filenames in Hrel. destruct Hrel as [l Hfile].
    assert (E : (d, l, File) = (d, islink, Dir cs)).
    { apply (unique_entry es); auto. }
    discriminate E.
  - apply in_rel_sub in Hrel. destruct Hrel as [e [r [_ E]]].
    rewrite E, !has_sep_append, has_sep_sep, orb_true_r in Hsep. discriminate.
Qed.

Lemma directory_never_collected_witness :
  ~ In "src/gen.c"
       (scan_walk (walk "src" (Dir [("gen.c", false, Dir [("a.c", false, File)])])) []).
Proof.
  apply (directory_never_collected "src"
           [("gen.c", false, Dir [("a.c", false, File)])] "gen.c" false
           [("a.c", false, File)]).
  - wf_tree.
  - now left.
Defined.



(* ================================================================== *)
(** ** More on the verify target, on names and on the registered targets *)

Module ReportFacts.
Import PyStr OsPath Os Collect Run Tree Disk.
Import StrFacts CollectFacts RunFacts TreeFacts TraceFacts ExtraFacts.

Lemma length_append (a b : string) :
  String.length (a ++ b)%string = String.length a + String.length b.
Proof. induction a as [|c a IH]; simpl; [reflexivity | now rewrite IH]. Qed.

Lemma append_inj_r (a b c : string) : (a ++ c)%string = (b ++ c)%string -> a = b.
Proof.
  revert b. induction a as [|x a IH]; intros [|y b] H; simpl in H.
  - reflexivity.
  - exfalso. apply (f_equal String.length) in H. simpl in H.
    rewrite length_append in H. lia.
  - exfalso. apply (f_equal String.length) in H. simpl in H.
    rewrite length_append in H. lia.
  - injection H as -> H. f_equal. now apply IH.
Qed.

(** [str] writes different numbers differently. *)
Lemma str_inj (n m : nat) : str n = str m -> n = m.
Proof.
  unfold str. intros H. apply (f_equal NilEmpty.uint_of_string) in H.
  rewrite !NilEmpty.usu in H. injection H as H.
  apply (f_equal Nat.of_uint) in H. now rewrite !DecimalNat.Unsigned.of_to in H.
Qed.



End ReportFacts.

Import ReportFacts.

(** X10. After a successful installation the verify target names every
    collected file in its output: the whole path in an error line when the
    file's check returns a non-zero status, the base name in a clean line
    otherwise.  The number of failed checks is at most the number of files
    that the first line announces. *)
Theorem verify_reports_each_file (w : World) (files : list string) (file : string) :
  pip_returncode w = 0%Z ->
  snd (get_project_files w) = Returned files ->
  In file files ->
  In (EvPrint ("Verifying " ++ str (List.length files) ++ " files...")%string)
     (fst (verify_callback w))
  /\ failing w files <= List.length files
  /\ (run_returncode w (verify_cmd file) <> 0%Z ->
      In (EvPrint ("❌ Formatting Error: " ++ file)%string) (fst (verify_callback w)))
  /\ (run_returncode w (verify_cmd file) = 0%Z ->
      In (EvPrint ("✅ Clean: " ++ basename file)%string) (fst (verify_callback w))).
Proof.
  intros Hpip Hfiles Hin. apply returned_files in Hfiles. subst files.
  assert (Hne : project_files w <> []).
  { intros E. rewrite E in Hin. contradiction. }
  rewrite (verify_run w Hpip Hne). cbn [fst].
  assert (Hline : In (EvPrint (if needs_formatting w file
                               then ("❌ Formatting Error: " ++ file)%string
                               else ("✅ Clean: " ++ basename file)%string))
                     (flat_map (verify_events w) (project_files w))).
  { apply in_flat_map. exists file. split; [exact Hin |]. right. now left. }
  split; [| split; [| split]].
  - apply in_or_app. right. apply in_or_app. right. now left.
  - apply filter_length_le.
  - intros Hrc. apply Z.eqb_neq in Hrc.
    unfold needs_formatting in Hline. rewrite Hrc in Hline.
    apply in_or_app. right. apply in_or_app. right. right.
    apply in_or_app. left. exact Hline.
  - intros Hrc. apply Z.eqb_eq in Hrc.
    unfold needs_formatting in Hline. rewrite Hrc in Hline.
    apply in_or_app. right. apply in_or_app. right. right.
    apply in_or_app. left. exact Hline.
Qed.

Lemma verify_reports_each_file_witness :
  In (EvPrint "❌ Formatting Error: src/a.cpp") (fst (verify_callback Demo.example))
  /\ In (EvPrint "✅ Clean: a.cpp") (fst (verify_callback Demo.example_clean)).
Proof.
  destruct (verify_reports_each_file Demo.example ["src/a.cpp"] "src/a.cpp"
              eq_refl eq_refl (or_introl eq_refl)) as [_ [_ [Hbad _]]].
  destruct (verify_reports_each_file Demo.example_clean ["src/a.cpp"] "src/a.cpp"
              eq_refl eq_refl (or_introl eq_refl)) as [_ [_ [_ Hgood]]].
  split; [apply Hbad; discriminate | apply Hgood; reflexivity].
Defined.

(** X11. In a well-formed tree the base name of the path of a discovered
    file is the file's name as its directory lists it: one turn of the verify
    loop on that path runs the dry-run command on the path and prints the
    clean line with just that name when the status is 0, the error line with
    the path and one more in the counter otherwise. *)
Theorem status_line_names_the_file
    (w : World) (top : string) (n : node) (dir name : string) (count : nat) :
  wf_node n ->
  discovered top n dir name ->
  basename (join dir name) = name
  /\ verify_one count (join dir name) w
     = ([EvRun ["clang-format"; "-n"; "--Werror"; join dir name];
         EvPrint (if Z.eqb (run_returncode w (verify_cmd (join dir name))) 0
                  then ("✅ Clean: " ++ name)%string
                  else ("❌ Formatting Error: " ++ join dir name)%string)],
        Returned (if Z.eqb (run_returncode w (verify_cmd (join dir name))) 0
                  then count else count + 1)).
Proof.
  intros Hwf Hd. destruct (discovered_wf_name top n dir name Hd Hwf) as [_ Hsep].
  pose proof (basename_join dir name Hsep) as Hb. split; [exact Hb |].
  unfold verify_one, bind, subprocess_run, print, emit, ret. cbn [fst snd].
  destruct (Z.eqb (run_returncode w (verify_cmd (join dir name))) 0); cbn.
  - now rewrite Hb.
  - reflexivity.
Qed.

Lemma status_line_names_the_file_witness :
  basename (join "src" "a.cpp") = "a.cpp".
Proof.
  assert (Hwf : wf_node Demo.src_tree) by (unfold Demo.src_tree; wf_tree).
  assert (Hd : discovered "src" Demo.src_tree "src" "a.cpp").
  { apply (disc_here "src" _ "a.cpp" false). now left. }
  destruct (status_line_names_the_file Demo.example "src" Demo.src_tree
              "src" "a.cpp" 0 Hwf Hd) as [H _].
  exact H.
Defined.

(** X12. [basename] splits a path at its last separator: the path is a
    directory part, empty or ending with the separator, followed by the base
    name, and the base name holds no separator. *)
Theorem basename_splits (p : string) :
  has_sep (basename p) = false
  /\ exists d, p = (d ++ basename p)%string
               /\ (d = EmptyString \/ endswith d sep = true).
Proof.
  induction p as [|c p [IHsep [d [IHd IHshape]]]].
  - split; [reflexivity |]. exists EmptyString. split; [reflexivity | now left].
  - cbn [basename]. destruct (has_sep p) eqn:Hp.
    + split; [exact IHsep |]. exists (String c d). split.
      * simpl. now rewrite <- IHd.
      * right. destruct IHshape as [-> | Hd].
        -- simpl in IHd. rewrite <- IHd in IHsep. congruence.
        -- rewrite endswith_unfold.
           destruct (String.eqb (String c d) sep); [reflexivity | exact Hd].
    + destruct (Ascii.eqb_spec c sep_char) as [-> | Hc].
      * split; [exact Hp |]. exists sep. split; [reflexivity | now right].
      * split.
        -- simpl. rewrite Hp. apply Ascii.eqb_neq in Hc. now rewrite Hc.
        -- exists EmptyString. split; [reflexivity | now left].
Qed.


(** X14. The summary line of a failed verify run determines the count:
    [str] writes different numbers differently, so two failure lines are the
    same only for the same number of failed checks. *)
Theorem failure_line_determines_count (n m : nat) :
  (nl ++ "FAILED: " ++ str n ++ " file(s) need formatting.")%string
  = (nl ++ "FAILED: " ++ str m ++ " file(s) need formatting.")%string ->
  n = m.
Proof.
  intros H. apply append_inj_l in H. apply (append_inj_l "FAILED: ") in H.
  apply append_inj_r in H. now apply str_inj.
Qed.

Lemma failure_line_determines_count_witness : 12 = 12.
Proof. apply (failure_line_determines_count 12 12). reflexivity. Defined.

(* ================================================================== *)
(** ** Roots inside roots, and the two targets side by side *)

Module PairFacts.
Import PyStr OsPath Os Collect Run Tree Disk.
Import StrFacts CollectFacts RunFacts TreeFacts TraceFacts ExtraFacts CollectorFacts.

(** What verify mode runs, after a successful installation. *)
Lemma verify_calls_ok (w : World) :
  pip_returncode w = 0%Z ->
  filter is_formatter_call (fst (verify_callback w))
  = map (fun file => EvRun (verify_cmd file)) (project_files w).
Proof.
  intros Hpip. destruct (project_files w) as [|f fs] eqn:E.
  - rewrite (verify_run_empty w Hpip E). cbn [fst].
    now rewrite !filter_app, (quiet_filter _ (collect_events_quiet w)).
  - assert (Hne : project_files w <> []) by congruence.
    rewrite (verify_run w Hpip Hne). rewrite E. cbn [fst].
    rewrite filter_app, filter_app. cbn [filter is_formatter_call install_events app].
    rewrite filter_app, verify_events_runs.
    rewrite (quiet_filter _ (collect_events_quiet w)).
    rewrite (prints_quiet _ (summary_events_prints _)).
    now rewrite app_nil_r.
Qed.

(** A file found under a sub-directory is found under the directory. *)
Lemma found_under_below (top : string) (es : list entry) (d : string) (c : node)
    (p : string) :
  In (d, false, c) es -> found_under (join top d) c p -> found_under top (Dir es) p.
Proof.
  intros Hd [dir [name [Hdisc [Hext E]]]]. exists dir, name.
  split; [| now split]. eapply disc_below; eassumption.
Qed.

End PairFacts.

Import PairFacts.

(** X15. When one root is a sub-directory of the other (not a symbolic
    link, and resolving to the same tree), every file collected for the inner
    root is collected for the outer one too, so it occurs at least twice in
    the result. *)
Theorem nested_root_collected_again
    (w : World) (outer inner top d : string) (es : list entry) (c : node)
    (files : list string) (p : string) :
  (outer = SRC /\ inner = INC) \/ (outer = INC /\ inner = SRC) ->
  getenv w outer = Some top ->
  top <> EmptyString ->
  fs_lookup w top = Some (Dir es) ->
  In (d, false, c) es ->
  getenv w inner = Some (join top d) ->
  fs_lookup w (join top d) = Some c ->
  snd (get_project_files w) = Returned files ->
  found w inner p ->
  found w outer p /\ 2 <= count_occ string_dec files p.
Proof.
  intros Hkeys Ho Hne Hfs Hd Hi Hfs' Hfiles Hp.
  apply returned_files in Hfiles. subst files.
  assert (Hout : found w outer p).
  { destruct Hp as [top' [n [Et [Hne' [El Hunder]]]]].
    rewrite Hi in Et. injection Et as <-. rewrite Hfs' in El. injection El as <-.
    exists top, (Dir es). repeat split; auto.
    now apply (found_under_below top es d c). }
  split; [exact Hout |].
  apply root_files_found in Hp. apply root_files_found in Hout.
  apply (count_occ_In string_dec) in Hp. apply (count_occ_In string_dec) in Hout.
  unfold project_files. rewrite count_occ_app.
  destruct Hkeys as [[-> ->] | [-> ->]]; lia.
Qed.

Lemma nested_root_collected_again_witness :
  2 <= count_occ string_dec ["src/a.c"; "src/inc/a.h"; "src/inc/a.h"] "src/inc/a.h".
Proof.
  assert (Hp : found nested_roots INC "src/inc/a.h").
  { apply root_files_found. now left. }
  destruct (nested_root_collected_again nested_roots SRC INC "src" "inc"
              [("a.c", false, File); ("inc", false, Dir [("a.h", false, File)])]
              (Dir [("a.h", false, File)])
              ["src/a.c"; "src/inc/a.h"; "src/inc/a.h"] "src/inc/a.h"
              (or_introl (conj eq_refl eq_refl)) eq_refl
              ltac:(discriminate) eq_refl (or_intror (or_introl eq_refl))
              eq_refl eq_refl eq_refl Hp) as [_ H].
  exact H.
Defined.

(** X16. After a successful installation the two targets work on the same
    files: the list of in-place commands of a format run and the list of
    dry-run commands of a verify run on the same host name the same files in
    the same order. *)
Theorem targets_process_same_files (w : World) (files : list string) :
  pip_returncode w = 0%Z ->
  snd (get_project_files w) = Returned files ->
  filter is_formatter_call (fst (format_callback w))
  = map (fun file => EvExecute (format_cmd file)) files
  /\ filter is_formatter_call (fst (verify_callback w))
     = map (fun file => EvRun (verify_cmd file)) files.
Proof.
  intros Hpip Hfiles. apply returned_files in Hfiles. subst files.
  split; [exact (format_calls w Hpip) | exact (verify_calls_ok w Hpip)].
Qed.

Lemma targets_process_same_files_witness :
  filter is_formatter_call (fst (format_callback Demo.example))
  = [EvExecute (format_cmd "src/a.cpp")]
  /\ filter is_formatter_call (fst (verify_callback Demo.example))
     = [EvRun (verify_cmd "src/a.cpp")].
Proof.
  exact (targets_process_same_files Demo.example ["src/a.cpp"] eq_refl eq_refl).
Defined.
